(** * Stellar anchor demo: SEP-10 handshake and SEP-24 transfer session

    A shallow embedding of the Express back end and of the React front end.
    The back end exists in two variants: [part_000] registers the two SEP-10
    routes, [part_001] the same two routes, line for line, and the two
    SEP-24 routes behind [verifyToken]; they differ in their configuration
    defaults only.  The front end is [App.jsx], and [part_002] is its SEP-10
    half.

    Handlers are written in a small monad that threads the log of remote
    calls and propagates JavaScript exceptions; the remote parties, the
    Stellar SDK and the platform functions are fields of a [World] record,
    so every theorem holds for all of their behaviours.  Of the log lines,
    those are kept that can throw: a template literal converts the value it
    prints to a string, and the conversion of a value taken from a request
    or from a reply can fail. *)

From Stdlib Require Import String Ascii List ZArith Bool Lia DecimalString.
Import ListNotations.
Local Open Scope list_scope.
Local Open Scope string_scope.
Local Set Warnings "-register-all".

(** ** JavaScript values and strings *)

Module Js.

(** A JSON-shaped JavaScript value, as [body-parser] and [axios] hand it to
  the code.  Numbers are kept as integers: the handlers only test them for
  truthiness and copy them. *)
Inductive value : Type :=
| Undefined
| Null
| Bool (b : bool)
| Num (n : Z)
| Str (s : string)
| Arr (items : list value)
| Obj (fields : list (string * value)).

(** An exception in flight.  [AxiosError] is what [axios] rejects with:
  [response] is [error.response?.data] when the server answered, and
  [None] when there was no answer at all.  [Error] is any other thrown
  error (a [TypeError], an SDK error). *)
Inductive exn : Type :=
| AxiosError (response : option value) (message : string)
| Error (message : string).

(** ToBoolean. *)
Definition truthy (v : value) : bool :=
match v with
| Undefined | Null => false
| Bool b => b
| Num n => negb (n =? 0)%Z
| Str s => negb (s =? EmptyString)
| Arr _ | Obj _ => true
end.

(** [a || b]. *)
Definition or (a b : value) : value := if truthy a then a else b.

Fixpoint assoc (k : string) (fields : list (string * value)) : value :=
match fields with
| [] => Undefined
| (k', v) :: rest => if k =? k' then v else assoc k rest
end.

(** [v.k] (also the destructuring [const { k } = v]): reading a property of
  [undefined] or [null] throws; a primitive or an array has none of the
  property names the code reads. *)
Definition prop (v : value) (k : string) : exn + value :=
match v with
| Undefined => inl (Error ("Cannot read properties of undefined (reading '" ++ k ++ "')"))
| Null => inl (Error ("Cannot read properties of null (reading '" ++ k ++ "')"))
| Obj fields => inr (assoc k fields)
| _ => inr Undefined
end.

(** Whether an object has an own property of that name. *)
Definition has_own (k : string) (fields : list (string * value)) : bool :=
existsb (fun kv => fst kv =? k) fields.

(** An object literal as it is serialised: [JSON.stringify] leaves out the
  properties whose value is [undefined]. *)
Definition object (fields : list (string * value)) : value :=
Obj (filter (fun kv => match snd kv with Undefined => false | _ => true end) fields).

(** [String.prototype.includes]. *)
Fixpoint str_includes (needle s : string) : bool :=
if String.prefix needle s then true
else match s with
     | EmptyString => false
     | String _ s' => str_includes needle s'
     end.

(** [String.prototype.startsWith]. *)
Definition startsWith (s p : string) : bool := String.prefix p s.

(** [s.substring(n)]. *)
Fixpoint substring_from (n : nat) (s : string) : string :=
match n, s with
| O, _ => s
| S n', String _ s' => substring_from n' s'
| S _, EmptyString => EmptyString
end.

Definition is_str (want : string) (v : value) : bool :=
match v with
| Str s => s =? want
| _ => false
end.

(** [v.includes(needle)] for a string needle: substring search on a string,
  membership on an array, and a [TypeError] on everything else, which has
  no [includes] method. *)
Definition includes (v : value) (needle : string) : exn + bool :=
match v with
| Str s => inr (str_includes needle s)
| Arr items => inr (existsb (is_str needle) items)
| _ => inl (Error "networkPassphrase.includes is not a function")
end.

(** The code unit of the double quote. *)
Definition dquote : ascii := ascii_of_nat 34.

(** The regular-expression class of white space, on Latin-1 code units. *)
Definition is_space (c : ascii) : bool :=
let n := nat_of_ascii c in
((9 <=? n) && (n <=? 13) || (n =? 32) || (n =? 160))%nat.

Fixpoint skip_spaces (s : string) : string :=
match s with
| String c s' => if is_space c then skip_spaces s' else s
| EmptyString => EmptyString
end.

(** The longest run of characters other than the double quote, and the rest. *)
Fixpoint span_unquoted (s : string) : string * string :=
match s with
| String c s' =>
    if Ascii.eqb c dquote then (EmptyString, s)
    else let (run, rest) := span_unquoted s' in (String c run, rest)
| EmptyString => (EmptyString, EmptyString)
end.

Fixpoint strip_prefix (p s : string) : option string :=
match p, s with
| EmptyString, _ => Some s
| String a p', String b s' => if Ascii.eqb a b then strip_prefix p' s' else None
| String _ _, EmptyString => None
end.

(** One attempt of the pattern KEY, spaces, an equals sign, spaces, and a
  non-empty quoted run, at the start of [s]; the result is capture group 1.
  Neither star can give characters back to what follows it (an equals sign
  and a quote are not spaces, and the group stops at the first quote), so
  the greedy choice is the only one. *)
Definition match_here (key s : string) : option string :=
match strip_prefix key s with
| None => None
| Some r =>
    match skip_spaces r with
    | String c r1 =>
        if Ascii.eqb c "="%char then
          match skip_spaces r1 with
          | String q r2 =>
              if Ascii.eqb q dquote then
                match span_unquoted r2 with
                | (String g gs, String _ _) => Some (String g gs)
                | _ => None
                end
              else None
          | EmptyString => None
          end
        else None
    | EmptyString => None
    end
end.

(** The leftmost match of the pattern in [s]. *)
Fixpoint match_key (key s : string) : option string :=
match match_here key s with
| Some g => Some g
| None =>
    match s with
    | EmptyString => None
    | String _ s' => match_key key s'
    end
end.

(** [text.match(/KEY\s*=\s*.../)] on a value: only a string has [match]. *)
Definition str_match (text : value) (key : string) : exn + option string :=
match text with
| Str s => inr (match_key key s)
| _ => inl (Error "tomlText.match is not a function")
end.

(** [error.response?.data || error.message]. *)
Definition details (e : exn) : value :=
match e with
| AxiosError (Some data) message => or data (Str message)
| AxiosError None message => Str message
| Error message => Str message
end.

(** *** Number to string

  A number of the model is an integer [n]; the value the code holds is the
  double nearest to it, which is [n] itself up to 2^53. *)

Definition decimal (n : Z) : string := NilZero.string_of_int (Z.to_int n).

(** The double nearest to [a], for [a] positive, as a significand below 2^53
  and a binary exponent; ties go to the even significand. *)
Definition to_double (a : Z) : Z * Z :=
let shift := (Z.log2 a - 52)%Z in
if (shift <=? 0)%Z then (a, 0%Z)
else
  let q := Z.shiftr a shift in
  let r := (a - Z.shiftl q shift)%Z in
  let half := Z.shiftl 1 (shift - 1) in
  let q' := if (half <? r)%Z || ((r =? half)%Z && Z.odd q) then (q + 1)%Z else q in
  if (q' =? 2 ^ 53)%Z then (2 ^ 52, shift + 1)%Z else (q', shift).

(** Whether the integer [v] is read back as the double [q * 2^shift]: it
  lies between the midpoints to the neighbouring doubles, the midpoints
  included when [q] is even.  Below a power of two the doubles are twice as
  dense. *)
Definition rounds_to (q shift v : Z) : bool :=
let d4 := (4 * q * 2 ^ shift)%Z in
let up := (2 * 2 ^ shift)%Z in
let down := if (q =? 2 ^ 52)%Z then (2 ^ shift)%Z else (2 * 2 ^ shift)%Z in
if Z.even q then ((d4 - down <=? 4 * v) && (4 * v <=? d4 + up))%Z
else ((d4 - down <? 4 * v) && (4 * v <? d4 + up))%Z.

(** The integer with the fewest significant digits that is read back as the
  double [d = q * 2^shift], the nearest to [d] among those; [nd] is the
  number of digits of [d] and [k] the number of digits tried.  Seventeen
  digits always suffice. *)
Fixpoint shortest (fuel : nat) (k : Z) (q shift d nd : Z) : Z :=
match fuel with
| O => d
| S fuel' =>
    let p := (nd - k)%Z in
    if (p <? 0)%Z then d
    else
      let lo := (d / 10 ^ p * 10 ^ p)%Z in
      let hi := (lo + 10 ^ p)%Z in
      match rounds_to q shift lo, rounds_to q shift hi with
      | true, true =>
          if (d - lo <? hi - d)%Z then lo
          else if (hi - d <? d - lo)%Z then hi
          else if Z.even (lo / 10 ^ p) then lo else hi
      | true, false => lo
      | false, true => hi
      | false, false => shortest fuel' (k + 1)%Z q shift d nd
      end
end.

(** The digits of a numeral without its trailing zeros. *)
Fixpoint strip_zeros (s : string) : string :=
match s with
| EmptyString => EmptyString
| String c s' =>
    match strip_zeros s' with
    | EmptyString => if Ascii.eqb c "0"%char then EmptyString else String c EmptyString
    | rest => String c rest
    end
end.

(** Number::toString for an integer: plain digits below 10^21 (the shortest
  digits that identify the double, padded with zeros), and from 10^21 on
  the exponent form, as in 1e+21 and 1.1805916207174113e+21. *)
Definition number_to_string (n : Z) : string :=
let a := Z.abs n in
let sign := if (n <? 0)%Z then "-" else "" in
if (a <? 2 ^ 53)%Z then sign ++ decimal a
else
  let (q, shift) := to_double a in
  if (971 <? shift)%Z then sign ++ "Infinity"
  else
    let d := (q * 2 ^ shift)%Z in
    let digits := decimal (shortest 17 1 q shift d (Z.of_nat (String.length (decimal d)))) in
    if (String.length digits <=? 21)%nat then sign ++ digits
    else
      let exponent := decimal (Z.of_nat (String.length digits) - 1) in
      match strip_zeros digits with
      | String c EmptyString => sign ++ String c ("e+" ++ exponent)
      | String c rest => sign ++ String c ("." ++ rest ++ "e+" ++ exponent)
      | EmptyString => sign ++ digits
      end.

(** ToString, as a template literal, [encodeURIComponent] and [new Error]
  apply it.  An object is converted by its [toString] method and then by its
  [valueOf] method.  A value that came from JSON holds no function, so an
  own property named toString hides the inherited method, the inherited
  [valueOf] returns the object itself, and the conversion throws a
  [TypeError]; without such a property the inherited method gives the
  constant text.  An array is joined, which converts each element other
  than [undefined] and [null] in turn. *)
Fixpoint to_string (v : value) : exn + string :=
match v with
| Undefined => inr "undefined"
| Null => inr "null"
| Bool true => inr "true"
| Bool false => inr "false"
| Num n => inr (number_to_string n)
| Str s => inr s
| Arr items =>
    (fix join (l : list value) : exn + string :=
       match l with
       | [] => inr EmptyString
       | x :: rest =>
           match match x with
                 | Undefined | Null => inr EmptyString
                 | _ => to_string x
                 end with
           | inl e => inl e
           | inr here =>
               match rest with
               | [] => inr here
               | _ :: _ =>
                   match join rest with
                   | inl e => inl e
                   | inr tail => inr (here ++ "," ++ tail)
                   end
               end
           end
       end) items
| Obj fields =>
    if has_own "toString" fields then inl (Error "Cannot convert object to primitive value")
    else inr "[object Object]"
end.

(** Whether ToString returns. *)
Definition printable (v : value) : bool :=
match to_string v with
| inr _ => true
| inl _ => false
end.

(** The text of a value that ToString converts. *)
Definition printed (v : value) : string :=
match to_string v with
| inr s => s
| inl _ => EmptyString
end.

(** [err.message]. *)
Definition message (e : exn) : string :=
match e with
| Error m => m
| AxiosError _ m => m
end.

(** *** [encodeURIComponent] on a string of Latin-1 code units *)

Definition hex_digit (n : nat) : ascii :=
nth n (list_ascii_of_string "0123456789ABCDEF") "0"%char.

Definition percent (n : nat) : string :=
String "%"%char (String (hex_digit (n / 16)) (String (hex_digit (n mod 16)) EmptyString)).

(** The characters that are not escaped: letters, digits and the marks. *)
Definition unreserved (c : ascii) : bool :=
let n := nat_of_ascii c in
((48 <=? n) && (n <=? 57) || (65 <=? n) && (n <=? 90) || (97 <=? n) && (n <=? 122))%nat
|| existsb (Ascii.eqb c) (list_ascii_of_string "-_.!~*'()").

(** Every other character is replaced by the escapes of its UTF-8 bytes:
  one byte below 128, two bytes from 128 to 255. *)
Fixpoint percent_encode (s : string) : string :=
match s with
| EmptyString => EmptyString
| String c s' =>
    (if unreserved c then String c EmptyString
     else
       let n := nat_of_ascii c in
       if (n <? 128)%nat then percent n
       else percent (192 + n / 64) ++ percent (128 + n mod 64))
    ++ percent_encode s'
end.

End Js.

Import Js.

(** ** Remote calls, replies and the handler monad *)

Definition headers : Type := list (string * string).

(** One call made through [axios]. *)
Inductive call : Type :=
| AxiosGet (url : string) (params : list (string * value)) (hdrs : headers)
| AxiosPost (url : string) (data : value) (hdrs : headers).

(** What the remote party does with a call: it answers with a 2xx status and
    a body, it answers with another status and a body (a rejection), or there
    is no answer (a transport failure). *)
Inductive reply : Type :=
| Ok (data : value)
| Rejected (data : value) (message : string)
| NoAnswer (message : string).

(** What [res.status(code).json(body)] sends back to the caller. *)
Record Response : Type := { status : Z; json : value }.

(** An incoming request: [req.headers.authorization] and [req.body].  The
    JSON body parser only hands over an object or an array; an array has none
    of the properties the handlers read, so the body is its field list. *)
Record Request : Type := {
  authorization : option string;
  body : list (string * value)
}.

(** The process configuration read from the environment at start-up. *)
Record Config : Type := {
  HOME_DOMAIN : string;
  CLIENT_DOMAIN : string;
  CLIENT_SIGNING_KEY : option string
}.

(** The defaults of the two server variants. *)
Definition config_sep10 (key : option string) : Config :=
  {| HOME_DOMAIN := "https://testanchor.stellar.org";
     CLIENT_DOMAIN := "7d857520cafe.ngrok-free.app ";
     CLIENT_SIGNING_KEY := key |}.

Definition config_sep24 (key : option string) : Config :=
  {| HOME_DOMAIN := "anchor-stage.owlpay.com";
     CLIENT_DOMAIN := "o55xnn-ip-220-133-81-12.tunnelmole.net";
     CLIENT_SIGNING_KEY := key |}.

(** A handler computation: it reads the log of the calls made so far, may
    extend it, and ends in a value or in a thrown exception. *)
Definition M (A : Type) : Type := list call -> (exn + A) * list call.

Definition ret {A} (a : A) : M A := fun log => (inr a, log).

Definition bind {A B} (m : M A) (k : A -> M B) : M B :=
  fun log =>
    match m log with
    | (inl e, log') => (inl e, log')
    | (inr a, log') => k a log'
    end.

Definition lift {A} (r : exn + A) : M A := fun log => (r, log).

(** [try { m } catch (error) { h error }], for a [catch] block that cannot
    throw. *)
Definition try_catch {A} (m : M A) (h : exn -> A) : M A :=
  fun log =>
    match m log with
    | (inl e, log') => (inr (h e), log')
    | (inr a, log') => (inr a, log')
    end.

(** The same for a [catch] block that can throw: what it throws leaves the
    handler, and the handler ends without a value. *)
Definition try_catch_throwing {A} (m : M A) (h : exn -> exn + A) : M A :=
  fun log =>
    match m log with
    | (inl e, log') => (h e, log')
    | (inr a, log') => (inr a, log')
    end.

Declare Scope handler_scope.
Delimit Scope handler_scope with handler.
Bind Scope handler_scope with M.
Notation "x <- m ;; k" := (bind m (fun x => k))
  (at level 100, m at next level, right associativity) : handler_scope.
Notation "m ;;; k" := (bind m (fun _ => k))
  (at level 100, right associativity) : handler_scope.
Local Open Scope handler_scope.

Definition respond (code : Z) (fields : list (string * value)) : Response :=
  {| status := code; json := object fields |}.

(** ** The Stellar SDK, as far as the code uses it *)

Record TimeBounds : Type := { minTime : Z; maxTime : Z }.

(** The part of a transaction that is signed. *)
Record TransactionBody : Type := {
  source : string;
  timeBounds : option TimeBounds;
  operations : string
}.

Record DecoratedSignature : Type := { hint : string; signature : string }.

(** A decoded envelope: the transaction and the signatures collected so far. *)
Record Envelope : Type := {
  env_tx : TransactionBody;
  env_signatures : list DecoratedSignature
}.

(** A [StellarSdk.Transaction] object. *)
Record Transaction : Type := {
  tx : TransactionBody;
  signatures : list DecoratedSignature;
  networkPassphrase : string
}.

Record Keypair : Type := { secretKey : string; publicKey : string }.

(** The SDK's codec and cryptography; a failure carries the error message. *)
Record Sdk : Type := {
  fromXDR : string -> string + Envelope;
  toXDR : Envelope -> string;
  hash : string -> TransactionBody -> string;
  fromSecret : string -> string + Keypair;
  signDecorated : Keypair -> string -> DecoratedSignature
}.

Module Networks.
Definition TESTNET : string := "Test SDF Network ; September 2015".
Definition PUBLIC : string := "Public Global Stellar Network ; September 2015".
End Networks.

(** Everything outside the program: the remote parties (the reply to a call
    may depend on the calls made before it), the SDK, the platform's
    [encodeURIComponent] (it throws on a malformed string) and the clock. *)
Record World : Type := {
  remote : list call -> call -> reply;
  sdk : Sdk;
  encodeURIComponent : string -> string + string;
  now : Z
}.

Section StellarSdk.

Variable W : World.

Definition sdk_error {A} (r : string + A) : exn + A :=
  match r with
  | inl message => inl (Error message)
  | inr a => inr a
  end.

(** [new StellarSdk.Transaction(envelope, networkPassphrase)]: the envelope
    is decoded from base64 XDR and the passphrase is kept with it; both
    arguments must be strings.  The time bounds are not looked at. *)
Definition new_Transaction (envelope network : value) : exn + Transaction :=
  match envelope with
  | Str xdr =>
      match fromXDR (sdk W) xdr with
      | inl message => inl (Error message)
      | inr env =>
          match network with
          | Str passphrase =>
              inr {| tx := env_tx env;
                     signatures := env_signatures env;
                     networkPassphrase := passphrase |}
          | _ => inl (Error "Invalid passphrase provided to Transaction")
          end
      end
  | _ => inl (Error "Invalid envelope provided to Transaction")
  end.

(** [txn.sign(keypair)]: the keypair signs the hash of the transaction
    under the transaction's network, and the signature is pushed at the
    end of the list. *)
Definition sign (txn : Transaction) (keypair : Keypair) : Transaction :=
  {| tx := tx txn;
     signatures :=
       (signatures txn ++
        [signDecorated (sdk W) keypair (hash (sdk W) (networkPassphrase txn) (tx txn))])%list;
     networkPassphrase := networkPassphrase txn |}.

Definition toEnvelope (txn : Transaction) : Envelope :=
  {| env_tx := tx txn; env_signatures := signatures txn |}.

End StellarSdk.

(** ** The back end *)

Section Server.

Variable W : World.
Variable cfg : Config.

(** [await axios.get(url, { params, headers })] and [await axios.post(url,
    data, { headers })], returning [response.data]: the call is logged and
    a reply other than a success is thrown as the error [axios] builds. *)
Definition axios (c : call) : M value :=
  fun log =>
    match remote W log c with
    | Ok data => (inr data, (log ++ [c])%list)
    | Rejected data message => (inl (AxiosError (Some data) message), (log ++ [c])%list)
    | NoAnswer message => (inl (AxiosError None message), (log ++ [c])%list)
    end.

Definition tomlUrl : string := HOME_DOMAIN cfg ++ "/.well-known/stellar.toml".

Definition json_headers : headers := [("Content-Type", "application/json")].

(** A log line that prints [v] inside a template literal: nothing is kept
    of it but the exception the conversion of [v] may throw. *)
Definition console_log (v : value) : M unit :=
  _ <- lift (to_string v) ;; ret tt.

(** *** SEP-10, step 1: [/api/sep10/get-challenge]

    The account is converted to a string twice, by the log line and by
    [encodeURIComponent]; the conversion has no effect and gives the same
    text both times, so the text of the first is used. *)
Definition sep10_get_challenge (req : Request) : M Response :=
  try_catch
    (let account := assoc "account" (body req) in
     if negb (truthy account) then
       ret (respond 400 [("error", Str "Missing required field: account")])
     else
       account_text <- lift (to_string account) ;;
       tomlText <- axios (AxiosGet tomlUrl [] []) ;;
       webAuthMatch <- lift (str_match tomlText "WEB_AUTH_ENDPOINT") ;;
       match webAuthMatch with
       | None =>
           ret (respond 400 [("error", Str "WEB_AUTH_ENDPOINT not found in stellar.toml")])
       | Some webAuthEndpoint =>
           account' <- lift (sdk_error (encodeURIComponent W account_text)) ;;
           domain' <- lift (sdk_error (encodeURIComponent W (CLIENT_DOMAIN cfg))) ;;
           let challengeUrl :=
             webAuthEndpoint ++ "?account=" ++ account' ++ "&client_domain=" ++ domain' in
           data <- axios (AxiosGet challengeUrl [] []) ;;
           network_passphrase <- lift (prop data "network_passphrase") ;;
           console_log network_passphrase ;;;
           transaction <- lift (prop data "transaction") ;;
           ret (respond 200 [("transaction", transaction);
                             ("network_passphrase", network_passphrase);
                             ("webAuthEndpoint", Str webAuthEndpoint)])
       end)
    (fun error =>
       respond 500 [("error", Str "Failed to get challenge from anchor");
                    ("details", details error)]).

(** *** SEP-10, step 3: [/api/sep10/submit] *)

(** The network the envelope is parsed and signed under. *)
Definition determine_network (networkPassphrase : value) : exn + value :=
  match includes networkPassphrase "Test" with
  | inl e => inl e
  | inr true => inr (Str Networks.TESTNET)
  | inr false =>
      match includes networkPassphrase "Public" with
      | inl e => inl e
      | inr true => inr (Str Networks.PUBLIC)
      | inr false => inr networkPassphrase
      end
  end.

(** The co-signing part of the handler: determine the network, parse the
    subject-signed envelope, sign it with the server's key. *)
Definition coSign (key : string) (signedTransaction networkPassphrase : value)
  : exn + Transaction :=
  match determine_network networkPassphrase with
  | inl e => inl e
  | inr network =>
      match new_Transaction W signedTransaction network with
      | inl e => inl e
      | inr txn =>
          match fromSecret (sdk W) key with
          | inl message => inl (Error message)
          | inr serverKeypair => inr (sign W txn serverKeypair)
          end
      end
  end.

Definition sep10_submit (req : Request) : M Response :=
  try_catch
    (let signedTransaction := assoc "signedTransaction" (body req) in
     let networkPassphrase := assoc "networkPassphrase" (body req) in
     if negb (truthy signedTransaction) || negb (truthy networkPassphrase) then
       ret (respond 400
              [("error", Str "Missing required fields: signedTransaction, networkPassphrase")])
     else
       match CLIENT_SIGNING_KEY cfg with
       | None | Some EmptyString =>
           ret (respond 500 [("error", Str "CLIENT_SIGNING_KEY not configured on server")])
       | Some key =>
           txn <- lift (coSign key signedTransaction networkPassphrase) ;;
           let fullySignedXdr := toXDR (sdk W) (toEnvelope txn) in
           tomlText <- axios (AxiosGet tomlUrl [] []) ;;
           webAuthMatch <- lift (str_match tomlText "WEB_AUTH_ENDPOINT") ;;
           match webAuthMatch with
           | None =>
               ret (respond 400 [("error", Str "WEB_AUTH_ENDPOINT not found in stellar.toml")])
           | Some webAuthEndpoint =>
               data <- axios (AxiosPost webAuthEndpoint
                                (Obj [("transaction", Str fullySignedXdr)])
                                json_headers) ;;
               token <- lift (prop data "token") ;;
               ret (respond 200 [("token", token)])
           end
       end)
    (fun error =>
       respond 500 [("error", Str "Failed to submit transaction");
                    ("details", details error)]).

(** *** SEP-24 *)

(** The middleware in front of the SEP-24 routes: [next] runs with
    [req.jwtToken] set to what follows the first seven characters. *)
Definition verifyToken (req : Request) (next : string -> M Response) : M Response :=
  match authorization req with
  | None =>
      ret (respond 401 [("error", Str "Missing or invalid Authorization header")])
  | Some authHeader =>
      if negb (truthy (Str authHeader)) || negb (startsWith authHeader "Bearer ") then
        ret (respond 401 [("error", Str "Missing or invalid Authorization header")])
      else next (substring_from 7 authHeader)
  end.

(** [mode.toUpperCase()] inside the first log line: only a string has it. *)
Definition toUpperCase_defined (mode : value) : exn + unit :=
  match mode with
  | Str _ => inr tt
  | _ => inl (Error "mode.toUpperCase is not a function")
  end.

Definition bearer (jwtToken : string) : string := "Bearer " ++ jwtToken.

(** The handler of [/api/sep24/start], behind [verifyToken].  Its [catch]
    block prints the mode inside a template literal, so it can throw. *)
Definition sep24_start (jwtToken : string) (req : Request) : M Response :=
  try_catch_throwing
    (let mode := assoc "mode" (body req) in
     let assetCode := assoc "assetCode" (body req) in
     let amount := assoc "amount" (body req) in
     let account := assoc "account" (body req) in
     if negb (truthy mode) || negb (truthy assetCode) || negb (truthy account) then
       ret (respond 400 [("error", Str "Missing required fields: mode, assetCode, account")])
     else
       lift (toUpperCase_defined mode) ;;;
       console_log assetCode ;;;
       console_log (or amount (Str "not specified")) ;;;
       console_log account ;;;
       tomlText <- axios (AxiosGet tomlUrl [] []) ;;
       transferServerMatch <- lift (str_match tomlText "TRANSFER_SERVER_SEP0024") ;;
       match transferServerMatch with
       | None =>
           ret (respond 400 [("error", Str "TRANSFER_SERVER not found in stellar.toml")])
       | Some transferServer =>
           axios (AxiosGet (transferServer ++ "/info") [] []) ;;;
           let endpoint :=
             if is_str "deposit" mode then "/transactions/deposit/interactive"
             else "/transactions/withdraw/interactive" in
           let url := transferServer ++ endpoint in
           let params :=
             ([("asset_code", assetCode); ("account", account)] ++
              (if truthy amount then [("amount", amount)] else []))%list in
           data <- axios (AxiosPost url (Obj params)
                            [("Authorization", bearer jwtToken);
                             ("Content-Type", "application/json")]) ;;
           id <- lift (prop data "id") ;;
           console_log id ;;;
           url' <- lift (prop data "url") ;;
           console_log url' ;;;
           type <- lift (prop data "type") ;;
           ret (respond 200 [("id", id); ("url", url'); ("type", type)])
       end)
    (fun error =>
       match to_string (assoc "mode" (body req)) with
       | inl thrown => inl thrown
       | inr mode_text =>
           inr (respond 500 [("error", Str ("Failed to start " ++ mode_text));
                             ("details", details error)])
       end).

(** The handler of [/api/sep24/transaction], behind [verifyToken]. *)
Definition sep24_transaction (jwtToken : string) (req : Request) : M Response :=
  try_catch
    (let id := assoc "id" (body req) in
     if negb (truthy id) then
       ret (respond 400 [("error", Str "Missing required field: id")])
     else
       console_log id ;;;
       tomlText <- axios (AxiosGet tomlUrl [] []) ;;
       transferServerMatch <- lift (str_match tomlText "TRANSFER_SERVER_SEP0024") ;;
       match transferServerMatch with
       | None =>
           ret (respond 400 [("error", Str "TRANSFER_SERVER not found in stellar.toml")])
       | Some transferServer =>
           data <- axios (AxiosGet (transferServer ++ "/transaction")
                            [("id", id)]
                            [("Authorization", bearer jwtToken)]) ;;
           transaction <- lift (prop data "transaction") ;;
           transaction_status <- lift (prop transaction "status") ;;
           console_log transaction_status ;;;
           transaction_message <- lift (prop transaction "message") ;;
           (if truthy transaction_message then console_log transaction_message else ret tt) ;;;
           ret {| status := 200; json := transaction |}
       end)
    (fun error =>
       respond 500 [("error", Str "Failed to get transaction status");
                    ("details", details error)]).

(** The routes as registered with Express. *)
Inductive route : Type :=
| post_sep10_get_challenge
| post_sep10_submit
| post_sep24_start
| post_sep24_transaction.

Definition dispatch (r : route) (req : Request) : M Response :=
  match r with
  | post_sep10_get_challenge => sep10_get_challenge req
  | post_sep10_submit => sep10_submit req
  | post_sep24_start => verifyToken req (fun jwtToken => sep24_start jwtToken req)
  | post_sep24_transaction => verifyToken req (fun jwtToken => sep24_transaction jwtToken req)
  end.

(** Serving one request: the response sent and the remote calls made.
    When an exception leaves the handler, no response is sent. *)
Definition serve (r : route) (req : Request) : (exn + Response) * list call :=
  dispatch r req [].

End Server.

(** ** The front end *)

Module Frontend.

(** The progress of the transfer session, [sep24Step]: how many of the
    steps of [sep24Steps] are done, the steps being Get Transfer Info,
    Interactive Flow, Monitor Transaction and Complete.  Step 3 is the
    session being polled, step 4 the session complete. *)
Inductive SessionState : Type :=
| NotStarted
| Initiating
| AwaitingInteraction
| Polling
| Terminal
| OtherStep (n : Z).

Definition session_state (sep24Step : Z) : SessionState :=
  match sep24Step with
  | 0%Z => NotStarted
  | 1%Z => Initiating
  | 2%Z => AwaitingInteraction
  | 3%Z => Polling
  | 4%Z => Terminal
  | n => OtherStep n
  end.

(** The React state the SEP-24 part of the component keeps. *)
Record State : Type := {
  authToken : string;
  transactionId : value;
  sep24Loading : bool;
  sep24Error : string;
  sep24Step : Z;
  transactionStatus : value
}.

(** What [await fetch(...)] gives: a response of the back end, or a thrown
    network error. *)
Inductive fetched : Type :=
| Fetched (response : Response)
| FetchFailed (message : string).

(** [response.ok]. *)
Definition ok (response : Response) : bool :=
  ((200 <=? status response) && (status response <=? 299))%Z.

(** The request [checkTransactionStatus] sends to the back end. *)
Definition status_request (st : State) : Request :=
  {| authorization := Some ("Bearer " ++ authToken st);
     body := [("id", transactionId st)] |}.

(** [checkTransactionStatus], given the outcome of its [fetch]: the state
    after the [finally] block. *)
Definition checkTransactionStatus (st : State) (outcome : fetched) : State :=
  let st1 :=
    {| authToken := authToken st; transactionId := transactionId st;
       sep24Loading := true; sep24Error := EmptyString;
       sep24Step := sep24Step st; transactionStatus := transactionStatus st |} in
  let failed (st' : State) (message : string) : State :=
    {| authToken := authToken st'; transactionId := transactionId st';
       sep24Loading := false; sep24Error := message;
       sep24Step := sep24Step st'; transactionStatus := transactionStatus st' |} in
  match outcome with
  | FetchFailed message => failed st1 message
  | Fetched response =>
      if negb (ok response) then
        match prop (json response) "error" with
        | inl thrown => failed st1 (message thrown)
        | inr e =>
            match to_string (or e (Str "Failed to get transaction status")) with
            | inl thrown => failed st1 (message thrown)
            | inr text => failed st1 text
            end
        end
      else
        let data := json response in
        let st2 :=
          {| authToken := authToken st1; transactionId := transactionId st1;
             sep24Loading := true; sep24Error := EmptyString;
             sep24Step := sep24Step st1; transactionStatus := data |} in
        match prop data "status" with
        | inl thrown => failed st2 (message thrown)
        | inr s =>
            {| authToken := authToken st2; transactionId := transactionId st2;
               sep24Loading := false; sep24Error := EmptyString;
               sep24Step := if is_str "completed" s then 4%Z else 3%Z;
               transactionStatus := data |}
        end
  end.

(** The signing half of [handleSignAndSubmit]: the front end determines the
    network with the same three-way test as the back end, parses the
    challenge, signs it with the user's key, and builds the body of the
    request to [/api/sep10/submit]. *)
Definition handleSignAndSubmit_request (W : World) (secretKey : string)
           (challengeTx : value) : exn + Request :=
  match prop challengeTx "network_passphrase" with
  | inl e => inl e
  | inr network_passphrase =>
      match determine_network network_passphrase with
      | inl e => inl e
      | inr network =>
          match prop challengeTx "transaction" with
          | inl e => inl e
          | inr transaction =>
              match new_Transaction W transaction network with
              | inl e => inl e
              | inr txn =>
                  match fromSecret (sdk W) secretKey with
                  | inl message => inl (Error message)
                  | inr keypair =>
                      let signedTransaction :=
                        toXDR (sdk W) (toEnvelope (sign W txn keypair)) in
                      inr {| authorization := None;
                             body := [("signedTransaction", Str signedTransaction);
                                      ("networkPassphrase", network_passphrase)] |}
                  end
              end
          end
      end
  end.

End Frontend.

(** ** The rest of the front end *)

Module App.
Import Frontend.

(** The SEP-10 cells of the component's state. *)
Record Sep10 : Type := {
  publicKey : string;
  secretKey : string;
  step : Z;
  loading : bool;
  error : string;
  challengeTx : value
}.

(** The SEP-24 cells of the component's state that [Frontend.State] does
    not hold. *)
Record Form : Type := {
  sep24Mode : value;
  assetCode : string;
  amount : string;
  interactiveUrl : value
}.

(** The whole state of the component. *)
Record Component : Type := {
  sep10 : Sep10;
  form : Form;
  session : State
}.

(** The message of the error thrown on a response that is not ok:
    [errData.error || fallback], made a string by [new Error]; when that
    conversion throws, the [catch] block gets the type error instead. *)
Definition rejection_message (response : Response) (fallback : string) : string :=
  match prop (json response) "error" with
  | inl e => message e
  | inr e =>
      match to_string (or e (Str fallback)) with
      | inl thrown => message thrown
      | inr text => text
      end
  end.

(** The request [handleGetChallenge] sends to the back end. *)
Definition challenge_request (s : Sep10) : Request :=
  {| authorization := None; body := [("account", Str (publicKey s))] |}.

(** [handleGetChallenge], given the outcome of its [fetch]: the state after
    the [finally] block. *)
Definition handleGetChallenge (s : Sep10) (outcome : fetched) : Sep10 :=
  let failed (m : string) : Sep10 :=
    {| publicKey := publicKey s; secretKey := secretKey s;
       step := 0; loading := false; error := m;
       challengeTx := challengeTx s |} in
  match outcome with
  | FetchFailed m => failed m
  | Fetched response =>
      if negb (ok response) then
        failed (rejection_message response "Failed to get challenge")
      else
        {| publicKey := publicKey s; secretKey := secretKey s;
           step := 2; loading := false; error := EmptyString;
           challengeTx := json response |}
  end.

(** [handleSignAndSubmit]: the challenge is signed in the browser, the
    request is sent with [fetch], and the token of an ok response is handed
    to [setAuthToken].  The result is the state after the [finally] block
    and the argument of [setAuthToken], if it was called. *)
Definition handleSignAndSubmit (W : World) (s : Sep10) (fetch : Request -> fetched)
  : Sep10 * option value :=
  let failed (m : string) : Sep10 * option value :=
    ({| publicKey := publicKey s; secretKey := secretKey s;
        step := 2; loading := false; error := m;
        challengeTx := challengeTx s |}, None) in
  match handleSignAndSubmit_request W (secretKey s) (challengeTx s) with
  | inl e => failed (message e)
  | inr req =>
      match fetch req with
      | FetchFailed m => failed m
      | Fetched response =>
          if negb (ok response) then
            failed (rejection_message response "Failed to submit transaction")
          else
            match prop (json response) "token" with
            | inl e => failed (message e)
            | inr token =>
                ({| publicKey := publicKey s; secretKey := secretKey s;
                    step := 4; loading := false; error := EmptyString;
                    challengeTx := challengeTx s |}, Some token)
            end
      end
  end.

(** The request [startSep24] sends to the back end. *)
Definition start_request (account : string) (f : Form) (st : State) (mode : string)
  : Request :=
  {| authorization := Some ("Bearer " ++ authToken st);
     body := [("mode", Str mode); ("assetCode", Str (assetCode f));
              ("amount", Str (amount f)); ("account", Str account)] |}.

(** [startSep24(mode)], given the outcome of its [fetch]. *)
Definition startSep24 (f : Form) (st : State) (mode : string) (outcome : fetched)
  : Form * State :=
  let failed (url : value) (m : string) : Form * State :=
    ({| sep24Mode := Null; assetCode := assetCode f; amount := amount f;
        interactiveUrl := url |},
     {| authToken := authToken st; transactionId := transactionId st;
        sep24Loading := false; sep24Error := m; sep24Step := 0;
        transactionStatus := transactionStatus st |}) in
  match outcome with
  | FetchFailed m => failed (interactiveUrl f) m
  | Fetched response =>
      if negb (ok response) then
        failed (interactiveUrl f) (rejection_message response ("Failed to start " ++ mode))
      else
        match prop (json response) "url" with
        | inl e => failed (interactiveUrl f) (message e)
        | inr url =>
            match prop (json response) "id" with
            | inl e => failed url (message e)
            | inr id =>
                ({| sep24Mode := Str mode; assetCode := assetCode f; amount := amount f;
                    interactiveUrl := url |},
                 {| authToken := authToken st; transactionId := id;
                    sep24Loading := false; sep24Error := EmptyString; sep24Step := 2;
                    transactionStatus := transactionStatus st |})
            end
        end
  end.

(** [resetSep24]. *)
Definition resetSep24 (c : Component) : Component :=
  {| sep10 := sep10 c;
     form := {| sep24Mode := Null; assetCode := assetCode (form c);
                amount := EmptyString; interactiveUrl := Str EmptyString |};
     session := {| authToken := authToken (session c);
                   transactionId := Str EmptyString;
                   sep24Loading := sep24Loading (session c);
                   sep24Error := EmptyString; sep24Step := 0;
                   transactionStatus := Null |} |}.

(** [reset]: the SEP-10 cells are cleared, then [resetSep24] runs. *)
Definition reset (c : Component) : Component :=
  resetSep24
    {| sep10 := {| publicKey := publicKey (sep10 c); secretKey := secretKey (sep10 c);
                   step := 0; loading := loading (sep10 c); error := EmptyString;
                   challengeTx := Null |};
       form := form c;
       session := {| authToken := EmptyString;
                     transactionId := transactionId (session c);
                     sep24Loading := sep24Loading (session c);
                     sep24Error := sep24Error (session c);
                     sep24Step := sep24Step (session c);
                     transactionStatus := transactionStatus (session c) |} |}.

(** A [fetch] that reaches the back end: whenever the route answers, the
    caller gets that answer. *)
Definition reaches_backend (W : World) (cfg : Config) (r : route)
           (fetch : Request -> fetched) : Prop :=
  forall req response, fst (serve W cfg r req) = inr response -> fetch req = Fetched response.

(** Such a [fetch]; when the route sends no answer, it fails once the
    connection is given up. *)
Definition via_backend (W : World) (cfg : Config) (r : route) (req : Request) : fetched :=
  match fst (serve W cfg r req) with
  | inr response => Fetched response
  | inl _ => FetchFailed "Failed to fetch"
  end.

End App.

(** ** The vocabulary of the statements *)

(** The headers a call is sent with. *)
Definition call_headers (c : call) : headers :=
  match c with
  | AxiosGet _ _ hdrs => hdrs
  | AxiosPost _ _ hdrs => hdrs
  end.

Definition is_post (c : call) : bool :=
  match c with
  | AxiosPost _ _ _ => true
  | AxiosGet _ _ _ => false
  end.

(** The test the handlers apply to a required field. *)
Definition missing (k : string) (req : Request) : bool :=
  negb (truthy (assoc k (body req))).

Definition missing_fields_start : Response :=
  respond 400 [("error", Str "Missing required fields: mode, assetCode, account")].

Definition missing_field_account : Response :=
  respond 400 [("error", Str "Missing required field: account")].

Definition unauthorized : Response :=
  respond 401 [("error", Str "Missing or invalid Authorization header")].

(** The routes behind [verifyToken], and their handlers. *)
Definition authenticated (r : route) : bool :=
  match r with
  | post_sep24_start | post_sep24_transaction => true
  | _ => false
  end.

Definition handler (W : World) (cfg : Config) (r : route) (jwtToken : string)
  : Request -> M Response :=
  match r with
  | post_sep10_get_challenge => sep10_get_challenge W cfg
  | post_sep10_submit => sep10_submit W cfg
  | post_sep24_start => sep24_start W cfg jwtToken
  | post_sep24_transaction => sep24_transaction W cfg jwtToken
  end.

(** The calls the handlers make. *)
Definition directory_fetch (cfg : Config) : call := AxiosGet (tomlUrl cfg) [] [].

Definition interactive_endpoint (mode : value) : string :=
  if is_str "deposit" mode then "/transactions/deposit/interactive"
  else "/transactions/withdraw/interactive".

(** The body of the initiation request. *)
Definition start_params (req : Request) : list (string * value) :=
  ([("asset_code", assoc "assetCode" (body req)); ("account", assoc "account" (body req))] ++
   (if truthy (assoc "amount" (body req)) then [("amount", assoc "amount" (body req))]
    else []))%list.

Definition initiation (jwtToken : string) (req : Request) (transferServer : string) : call :=
  AxiosPost (transferServer ++ interactive_endpoint (assoc "mode" (body req)))
            (Obj (start_params req))
            [("Authorization", bearer jwtToken); ("Content-Type", "application/json")].

Definition info_fetch (transferServer : string) : call :=
  AxiosGet (transferServer ++ "/info") [] [].

Definition status_query (jwtToken : string) (req : Request) (transferServer : string) : call :=
  AxiosGet (transferServer ++ "/transaction") [("id", assoc "id" (body req))]
           [("Authorization", bearer jwtToken)].

(** The transfer server the directory advertises, as the handlers find it. *)
Definition advertised (W : World) (cfg : Config) (key : string) (endpoint : string) : Prop :=
  exists toml,
    remote W [] (directory_fetch cfg) = Ok (Str toml) /\ match_key key toml = Some endpoint.

Import Frontend.

(** A session waiting for the user's interaction, and its state after a
    poll that the back end answered with [response]. *)
Definition idle : State :=
  {| authToken := "jwt"; transactionId := Str "tx1"; sep24Loading := false;
     sep24Error := EmptyString; sep24Step := 2; transactionStatus := Null |}.

Definition polled (st : State) (response : Response) : SessionState :=
  session_state (sep24Step (checkTransactionStatus st (Fetched response))).

(** Equality of signatures. *)
Definition sig_eqb (a b : DecoratedSignature) : bool :=
  (hint a =? hint b) && (signature a =? signature b).

(** How many times a signature occurs in a signature list. *)
Fixpoint count_sig (d : DecoratedSignature) (l : list DecoratedSignature) : nat :=
  match l with
  | [] => 0
  | x :: rest => (if sig_eqb d x then 1 else 0) + count_sig d rest
  end.

(** The signature the server's key makes over a transaction under a network. *)
Definition origin_signature (W : World) (k : Keypair) (network : string)
           (t : TransactionBody) : DecoratedSignature :=
  signDecorated (sdk W) k (hash (sdk W) network t).

(** The network a co-signing ran under, if it produced a transaction. *)
Definition network_used (r : exn + Transaction) : option string :=
  match r with
  | inr txn => Some (networkPassphrase txn)
  | inl _ => None
  end.

(** The POST that hands the co-signed envelope to the anchor. *)
Definition submission (W : World) (endpoint : string) (txn : Transaction) : call :=
  AxiosPost endpoint (Obj [("transaction", Str (toXDR (sdk W) (toEnvelope txn)))])
            json_headers.

(** What a [catch] block answers. *)
Definition failed (kind : string) (e : exn) : Response :=
  respond 500 [("error", Str kind); ("details", details e)].

(** What the handler answers once the envelope has been submitted. *)
Definition submit_outcome (r : reply) : Response :=
  match r with
  | Ok data =>
      match prop data "token" with
      | inr token => respond 200 [("token", token)]
      | inl e => failed "Failed to submit transaction" e
      end
  | Rejected data message =>
      failed "Failed to submit transaction" (AxiosError (Some data) message)
  | NoAnswer message =>
      failed "Failed to submit transaction" (AxiosError None message)
  end.

(** The same world at another time. *)
Definition with_clock (W : World) (clock : Z) : World :=
  {| remote := remote W;
     sdk := sdk W;
     encodeURIComponent := encodeURIComponent W;
     now := clock |}.

(** A transaction is expired once the clock is past its not-after bound. *)
Definition expired (W : World) (t : TransactionBody) : bool :=
  match timeBounds t with
  | Some bounds => (maxTime bounds <? now W)%Z
  | None => false
  end.

(** The envelope a request carries, when it decodes. *)
Definition carried (W : World) (req : Request) : option Envelope :=
  match assoc "signedTransaction" (body req) with
  | Str xdr =>
      match fromXDR (sdk W) xdr with
      | inr env => Some env
      | inl _ => None
      end
  | _ => None
  end.

(** The message each route puts in the error field of its 500 answer. *)
Definition error_kind (r : route) (req : Request) : string :=
  match r with
  | post_sep10_get_challenge => "Failed to get challenge from anchor"
  | post_sep10_submit => "Failed to submit transaction"
  | post_sep24_start => "Failed to start " ++ printed (assoc "mode" (body req))
  | post_sep24_transaction => "Failed to get transaction status"
  end.

(** The reply the remote party gave to call number [i] of a log: the call
    was made after the calls before it. *)
Definition reply_at (W : World) (log : list call) (i : nat) : option reply :=
  match nth_error log i with
  | Some c => Some (remote W (firstn i log) c)
  | None => None
  end.

(** [typeof v === 'string']. *)
Definition is_string (v : value) : bool :=
  match v with
  | Str _ => true
  | _ => false
  end.

(** A request that passes the local checks of the initiation handler: the
    three required fields are truthy, the mode is a string, and the values
    the log lines print (the asset code, the amount when it is truthy, the
    account) can be converted to strings. *)
Definition well_formed_start (req : Request) : bool :=
  is_string (assoc "mode" (body req)) &&
  negb (missing "mode" req) && negb (missing "assetCode" req) &&
  negb (missing "account" req) &&
  printable (assoc "assetCode" (body req)) &&
  printable (or (assoc "amount" (body req)) (Str "not specified")) &&
  printable (assoc "account" (body req)).


(** What the handler answers, for a mode that is a string, once the
    initiation has been sent: the id and the url of the reply are printed by
    the log lines before the answer is made. *)
Definition start_outcome (req : Request) (r : reply) : Response :=
  let kind := error_kind post_sep24_start req in
  match r with
  | Ok data =>
      match prop data "id" with
      | inl e => failed kind e
      | inr id =>
          match to_string id with
          | inl e => failed kind e
          | inr _ =>
              match prop data "url" with
              | inl e => failed kind e
              | inr url =>
                  match to_string url with
                  | inl e => failed kind e
                  | inr _ =>
                      match prop data "type" with
                      | inl e => failed kind e
                      | inr type => respond 200 [("id", id); ("url", url); ("type", type)]
                      end
                  end
              end
          end
      end
  | Rejected data message => failed kind (AxiosError (Some data) message)
  | NoAnswer message => failed kind (AxiosError None message)
  end.

(** The call that carries the token to the anchor, on each of the two
    routes behind [verifyToken]. *)
Definition forwarding (r : route) (jwtToken : string) (req : Request)
           (transferServer : string) : call :=
  match r with
  | post_sep24_start => initiation jwtToken req transferServer
  | _ => status_query jwtToken req transferServer
  end.

(** When a request gets as far as that call: the directory advertises the
    transfer server, the request passes the local checks of its handler,
    and on the initiation route the info fetch succeeds. *)
Definition gets_through (W : World) (cfg : Config) (r : route) (req : Request)
           (transferServer : string) : Prop :=
  advertised W cfg "TRANSFER_SERVER_SEP0024" transferServer /\
  match r with
  | post_sep24_start =>
      well_formed_start req = true /\
      exists info, remote W [directory_fetch cfg] (info_fetch transferServer) = Ok info
  | _ =>
      missing "id" req = false /\ printable (assoc "id" (body req)) = true
  end.

(** The body of an initiation request for USDC. *)
Definition start_fields (mode amount : value) : list (string * value) :=
  [("mode", mode); ("assetCode", Str "USDC"); ("amount", amount);
   ("account", Str "GSUBJECT")].

(** ** More vocabulary: strings, the SEP-10 routes and the status route *)

(** No double quote occurs in the string. *)
Fixpoint quote_free (s : string) : bool :=
  match s with
  | EmptyString => true
  | String c s' => negb (Ascii.eqb c dquote) && quote_free s'
  end.

(** Every character of the string is white space. *)
Fixpoint all_spaces (s : string) : bool :=
  match s with
  | EmptyString => true
  | String c s' => is_space c && all_spaces s'
  end.

(** A line of the directory document that assigns [v] to [key]. *)
Definition assignment (key ws1 ws2 v rest : string) : string :=
  key ++ ws1 ++ String "="%char (ws2 ++ String dquote (v ++ String dquote rest)).

Definition call_url (c : call) : string :=
  match c with
  | AxiosGet url _ _ => url
  | AxiosPost url _ _ => url
  end.

(** The challenge request to the anchor. *)
Definition challenge_fetch (endpoint account domain : string) : call :=
  AxiosGet (endpoint ++ "?account=" ++ account ++ "&client_domain=" ++ domain) [] [].

Definition auth_not_advertised : Response :=
  respond 400 [("error", Str "WEB_AUTH_ENDPOINT not found in stellar.toml")].

Definition missing_fields_submit : Response :=
  respond 400 [("error", Str "Missing required fields: signedTransaction, networkPassphrase")].

Definition key_not_configured : Response :=
  respond 500 [("error", Str "CLIENT_SIGNING_KEY not configured on server")].

Definition missing_field_id : Response :=
  respond 400 [("error", Str "Missing required field: id")].

(** A transaction of the anchor's answer that the status handler can log:
    it is neither [undefined] nor [null], its status can be printed, and so
    can its message when that is truthy. *)
Definition loggable (transaction : value) : bool :=
  match prop transaction "status", prop transaction "message" with
  | inr transaction_status, inr transaction_message =>
      printable transaction_status &&
      (negb (truthy transaction_message) || printable transaction_message)
  | _, _ => false
  end.

(** What the status handler answers once the anchor has answered the query
    with success. *)
Definition status_outcome (data : value) : Response :=
  let kind := "Failed to get transaction status" in
  match prop data "transaction" with
  | inl e => failed kind e
  | inr transaction =>
      match prop transaction "status" with
      | inl e => failed kind e
      | inr transaction_status =>
          match to_string transaction_status with
          | inl e => failed kind e
          | inr _ =>
              match prop transaction "message" with
              | inl e => failed kind e
              | inr transaction_message =>
                  if truthy transaction_message then
                    match to_string transaction_message with
                    | inl e => failed kind e
                    | inr _ => {| status := 200; json := transaction |}
                    end
                  else {| status := 200; json := transaction |}
              end
          end
      end
  end.

(** The signing key, when [!CLIENT_SIGNING_KEY] is false. *)
Definition signing_key (cfg : Config) : option string :=
  match CLIENT_SIGNING_KEY cfg with
  | Some (String a key) => Some (String a key)
  | _ => None
  end.

(** The envelope the browser sends after the user's key has signed [env]
    under [network]. *)
Definition user_signed (W : World) (user : Keypair) (network : string) (env : Envelope)
  : Envelope :=
  {| env_tx := env_tx env;
     env_signatures :=
       (env_signatures env ++ [origin_signature W user network (env_tx env)])%list |}.

(** ** A small concrete world, for running the handlers *)

Module Demo.

Definition q : string := String dquote EmptyString.
Definition nl : string := String (ascii_of_nat 10) EmptyString.

Definition subject : Keypair := {| secretKey := "SUBJECT"; publicKey := "GSUBJECT" |}.
Definition origin : Keypair := {| secretKey := "SORIGIN"; publicKey := "GORIGIN" |}.

(** A challenge valid from time 1000 to time 1900. *)
Definition challenge : TransactionBody :=
  {| source := "GSERVER";
     timeBounds := Some {| minTime := 1000; maxTime := 1900 |};
     operations := "manage_data" |}.

Definition demo_hash (passphrase : string) (t : TransactionBody) : string :=
  passphrase ++ "/" ++ source t ++ "/" ++ operations t.

Definition demo_signDecorated (k : Keypair) (h : string) : DecoratedSignature :=
  {| hint := publicKey k; signature := secretKey k ++ "@" ++ h |}.

Definition by_subject : DecoratedSignature :=
  demo_signDecorated subject (demo_hash Networks.TESTNET challenge).
Definition by_origin : DecoratedSignature :=
  demo_signDecorated origin (demo_hash Networks.TESTNET challenge).

Definition demo_toXDR (e : Envelope) : string :=
  fold_left (fun acc d => acc ++ "+" ++ hint d) (env_signatures e) "envelope".

Definition demo_fromXDR (xdr : string) : string + Envelope :=
  if xdr =? "envelope" then
    inr {| env_tx := challenge; env_signatures := [] |}
  else if xdr =? "envelope+GSUBJECT" then
    inr {| env_tx := challenge; env_signatures := [by_subject] |}
  else if xdr =? "envelope+GSUBJECT+GORIGIN" then
    inr {| env_tx := challenge; env_signatures := [by_subject; by_origin] |}
  else inl "XDR Read Error".

Definition demo_fromSecret (s : string) : string + Keypair :=
  if s =? "SUBJECT" then inr subject
  else if s =? "SORIGIN" then inr origin
  else inl "invalid encoded string".

Definition demo_sdk : Sdk :=
  {| fromXDR := demo_fromXDR;
     toXDR := demo_toXDR;
     hash := demo_hash;
     fromSecret := demo_fromSecret;
     signDecorated := demo_signDecorated |}.

Definition cfg : Config := config_sep10 (Some "SORIGIN").

Definition auth_line : string :=
  "WEB_AUTH_ENDPOINT = " ++ q ++ "https://anchor/auth" ++ q ++ nl.
Definition transfer_line : string :=
  "TRANSFER_SERVER_SEP0024=" ++ q ++ "https://anchor/sep24" ++ q ++ nl.

(** The anchor: it serves the directory document [toml], answers every
    POST with [on_post], and plays the other SEP-10 and SEP-24 calls. *)
Definition anchor (toml : string) (on_post : reply) (log : list call) (c : call) : reply :=
  match c with
  | AxiosGet url _ _ =>
      if url =? "https://testanchor.stellar.org/.well-known/stellar.toml" then Ok (Str toml)
      else if url =? "https://anchor/sep24/info" then Ok (Obj [])
      else if url =? "https://anchor/sep24/transaction" then
        Ok (Obj [("transaction", Obj [("id", Str "tx1"); ("status", Str "incomplete")])])
      else if String.prefix "https://anchor/auth?" url then
        Ok (Obj [("transaction", Str "envelope");
                 ("network_passphrase", Str Networks.TESTNET)])
      else NoAnswer "Network Error"
  | AxiosPost _ _ _ => on_post
  end.

Definition world (toml : string) (on_post : reply) (clock : Z) : World :=
  {| remote := anchor toml on_post;
     sdk := demo_sdk;
     encodeURIComponent := fun s => inr (percent_encode s);
     now := clock |}.

Definition token_reply : reply := Ok (Obj [("token", Str "jwt")]).
Definition interactive_reply : reply :=
  Ok (Obj [("id", Str "tx1"); ("url", Str "https://anchor/interactive/tx1");
           ("type", Str "interactive_customer_info_needed")]).

Definition submit_request (xdr passphrase : string) : Request :=
  {| authorization := None;
     body := [("signedTransaction", Str xdr); ("networkPassphrase", Str passphrase)] |}.

Definition start_request (auth : option string) (fields : list (string * value)) : Request :=
  {| authorization := auth; body := fields |}.

End Demo.

(** A world whose remote parties answer by the URL called, the first entry
    of the script that has the URL deciding; any other call gets no answer. *)
Definition scripted_remote (script : list (string * reply)) (log : list call) (c : call)
  : reply :=
  match find (fun entry => fst entry =? call_url c) script with
  | Some (_, r) => r
  | None => NoAnswer "Network Error"
  end.

Definition scripted (script : list (string * reply)) : World :=
  {| remote := scripted_remote script;
     sdk := Demo.demo_sdk;
     encodeURIComponent := fun s => inr (percent_encode s);
     now := 0 |}.

(** The directory of the concrete world, as a script entry. *)
Definition directory_entry (toml : string) : string * reply :=
  ("https://testanchor.stellar.org/.well-known/stellar.toml", Ok (Str toml)).

(** ** Proof automation *)

(** Case analysis along a handler: split on the reply to the next remote
    call, then on the next property read. *)
Ltac step_call :=
  match goal with
  | |- context [remote ?W ?l ?c] => destruct (remote W l c) eqn:?
  end.

Ltac step_prop :=
  match goal with
  | |- context [prop ?a ?k] => destruct (prop a k) eqn:?
  end.

Ltac step_print :=
  match goal with
  | |- context [to_string ?v] => destruct (to_string v) eqn:?
  end.

Ltac step_truthy :=
  match goal with
  | |- context [if truthy ?v then _ else _] => destruct (truthy v) eqn:?
  end.

Ltac steps := repeat (first [step_call | step_prop | step_print]; cbv beta iota).

Ltac unfold_monad :=
  unfold try_catch, try_catch_throwing, console_log, bind, lift, ret, axios in *.

(** Split on the innermost thing the code tests next. *)
Ltac split_inner :=
  match goal with
  | |- context [match ?x with _ => _ end] =>
      lazymatch x with
      | context [match _ with _ => _ end] => fail
      | _ => destruct x eqn:?
      end
  end.

Ltac run := repeat (split_inner; cbv beta iota; cbn [app]).



(** ** Basic facts about strings and the monad *)

Lemma prefix_split (p s : string) :
  String.prefix p s = true -> s = p ++ substring_from (String.length p) s.
Proof.
  revert s. induction p as [|a p IH]; intros s H.
  - reflexivity.
  - destruct s as [|b s]; cbn [String.prefix] in H; [discriminate|].
    destruct (ascii_dec a b) as [->|]; [|discriminate].
    cbn [String.length substring_from append]. f_equal. now apply IH.
Qed.

Lemma prefix_append (p s : string) : String.prefix p (p ++ s) = true.
Proof.
  induction p as [|a p IH]; cbn [String.prefix append]; [now destruct s|].
  destruct (ascii_dec a a); [assumption|contradiction].
Qed.

Lemma substring_from_append (p s : string) :
  substring_from (String.length p) (p ++ s) = s.
Proof. induction p as [|a p IH]; simpl; [now destruct s|assumption]. Qed.

Lemma strip_prefix_prefix (p s r : string) :
  strip_prefix p s = Some r -> String.prefix p s = true.
Proof.
  revert s. induction p as [|a p IH]; intros s H; [now destruct s|].
  destruct s as [|b s]; cbn [strip_prefix String.prefix] in *; [discriminate|].
  destruct (Ascii.eqb_spec a b) as [->|]; [|discriminate].
  destruct (ascii_dec b b); [eauto|contradiction].
Qed.

(** A document in which the key does not occur has no match for it. *)
Lemma match_key_absent (key s : string) :
  str_includes key s = false -> match_key key s = None.
Proof.
  induction s as [|c s IH]; cbn [str_includes match_key]; intros H.
  - unfold match_here.
    destruct (strip_prefix key EmptyString) eqn:E; [|reflexivity].
    apply strip_prefix_prefix in E. now rewrite E in H.
  - destruct (String.prefix key (String c s)) eqn:P; [discriminate|].
    unfold match_here.
    destruct (strip_prefix key (String c s)) eqn:E.
    + apply strip_prefix_prefix in E. congruence.
    + now apply IH.
Qed.

Lemma absent_missing (k : string) (req : Request) :
  assoc k (body req) = Undefined -> missing k req = true.
Proof. unfold missing. now intros ->. Qed.

(** The codec of the concrete world decodes what it encodes. *)
Lemma demo_codec_roundtrip (sigs : list DecoratedSignature) :
  In sigs [[]; [Demo.by_subject]; [Demo.by_subject; Demo.by_origin]] ->
  let env := {| env_tx := Demo.challenge; env_signatures := sigs |} in
  Demo.demo_fromXDR (Demo.demo_toXDR env) = inr env.
Proof. intros [<-|[<-|[<-|[]]]]; reflexivity. Qed.

(** ** Which requests are answered *)

Lemma try_catch_answers {A : Type} (m : M A) (h : exn -> A) (log : list call) :
  exists a, fst (try_catch m h log) = inr a.
Proof.
  unfold try_catch. destruct (m log) as [[e|a] log']; eexists; reflexivity.
Qed.

Lemma verifyToken_answers (req : Request) (next : string -> M Response) :
  (forall jwtToken log, exists resp, fst (next jwtToken log) = inr resp) ->
  exists resp, fst (verifyToken req next []) = inr resp.
Proof.
  intros Hnext. unfold verifyToken.
  destruct (authorization req) as [authHeader|]; [|eexists; reflexivity].
  destruct (negb _ || negb _); [eexists; reflexivity|apply Hnext].
Qed.

(** No exception escapes the three handlers whose [catch] block cannot
    throw: whatever the remote parties and the SDK do, the caller gets a
    response. *)
Lemma serve_answers (W : World) (cfg : Config) (r : route) (req : Request) :
  r <> post_sep24_start ->
  exists resp, fst (serve W cfg r req) = inr resp.
Proof.
  intros Hr. unfold serve. destruct r; cbn [dispatch].
  - apply try_catch_answers.
  - apply try_catch_answers.
  - contradiction.
  - apply verifyToken_answers. intros jwtToken log. apply try_catch_answers.
Qed.

(** No handler reads the clock. *)
Lemma serve_ignores_clock (W : World) (clock : Z) (cfg : Config) (r : route)
      (req : Request) :
  serve (with_clock W clock) cfg r req = serve W cfg r req.
Proof. destruct r; reflexivity. Qed.

(** The front end signs under the network [determine_network] picks, and
    sends the passphrase it received on to the back end as it is. *)
Lemma front_end_forwards_passphrase (W : World) (secretKey : string)
      (challengeTx : value) (req : Request) :
  handleSignAndSubmit_request W secretKey challengeTx = inr req ->
  prop challengeTx "network_passphrase" = inr (assoc "networkPassphrase" (body req)).
Proof.
  unfold handleSignAndSubmit_request. intros H.
  destruct (prop challengeTx "network_passphrase") as [e|passphrase]; [discriminate|].
  destruct (determine_network passphrase) as [e|network]; [discriminate|].
  destruct (prop challengeTx "transaction") as [e|transaction]; [discriminate|].
  destruct (new_Transaction W transaction network) as [e|txn]; [discriminate|].
  destruct (fromSecret (sdk W) secretKey) as [m|keypair]; [discriminate|].
  injection H as <-. reflexivity.
Qed.

(** ** Local validation *)

(** C6. A transfer-initiation request in which mode, assetCode or account is
    missing is answered at once with the 400 missing-fields error, and a
    challenge request in which account is missing with the 400 missing-field
    error; in both cases the log of remote calls stays empty (no directory
    fetch, no call to the anchor).  For the initiation this holds of the
    handler for every token, and the whole route makes no remote call either. *)
Theorem missing_field_is_local (W : World) (cfg : Config) (start challenge : Request) :
  missing "mode" start || missing "assetCode" start || missing "account" start = true ->
  missing "account" challenge = true ->
  (forall jwtToken,
      sep24_start W cfg jwtToken start [] = (inr missing_fields_start, [])) /\
  snd (serve W cfg post_sep24_start start) = [] /\
  serve W cfg post_sep10_get_challenge challenge = (inr missing_field_account, []).
Proof.
  unfold missing. intros Hs Hc.
  assert (Hh : forall jwtToken,
             sep24_start W cfg jwtToken start [] = (inr missing_fields_start, [])).
  { intros jwtToken. unfold sep24_start, try_catch_throwing. now rewrite Hs. }
  repeat split.
  - exact Hh.
  - unfold serve, dispatch, verifyToken.
    destruct (authorization start) as [authHeader|]; [|reflexivity].
    destruct (negb (truthy (Str authHeader)) || negb (startsWith authHeader "Bearer "));
      [reflexivity|].
    now rewrite Hh.
  - unfold serve, dispatch, sep10_get_challenge, try_catch. now rewrite Hc.
Qed.

Lemma missing_field_is_local_witness :
  let W := Demo.world Demo.transfer_line Demo.interactive_reply 0 in
  let start := Demo.start_request (Some "Bearer jwt")
                 [("assetCode", Str "USDC"); ("account", Str "GSUBJECT")] in
  let challenge := Demo.start_request None [] in
  (forall jwtToken,
      sep24_start W Demo.cfg jwtToken start [] = (inr missing_fields_start, [])) /\
  snd (serve W Demo.cfg post_sep24_start start) = [] /\
  serve W Demo.cfg post_sep10_get_challenge challenge = (inr missing_field_account, []).
Proof.
  intros W start challenge.
  apply (missing_field_is_local W Demo.cfg start challenge); reflexivity.
Defined.

(** ** The shape of the log of the SEP-24 handlers *)

(** A [catch] block makes no remote call. *)
Lemma try_catch_log {A : Type} (m : M A) (h : exn -> A) (log : list call) :
  snd (try_catch m h log) = snd (m log).
Proof. unfold try_catch. now destruct (m log) as [[e|a] log']. Qed.

Lemma try_catch_throwing_log {A : Type} (m : M A) (h : exn -> exn + A) (log : list call) :
  snd (try_catch_throwing m h log) = snd (m log).
Proof. unfold try_catch_throwing. now destruct (m log) as [[e|a] log']. Qed.

Lemma sep24_start_log (W : World) (cfg : Config) (jwtToken : string) (req : Request) :
  let log := snd (sep24_start W cfg jwtToken req []) in
  log = [] \/ log = [directory_fetch cfg] \/
  exists transferServer,
    advertised W cfg "TRANSFER_SERVER_SEP0024" transferServer /\
    (log = [directory_fetch cfg; info_fetch transferServer] \/
     log = [directory_fetch cfg; info_fetch transferServer;
            initiation jwtToken req transferServer]).
Proof.
  unfold sep24_start. cbv zeta. rewrite try_catch_throwing_log.
  unfold_monad. cbn [app]. fold (directory_fetch cfg).
  destruct (negb _ || _ || _); [now left|].
  destruct (toUpperCase_defined _); [now left|].
  destruct (to_string (assoc "assetCode" (body req))) as [e|_]; [now left|].
  destruct (to_string (or _ _)) as [e|_]; [now left|].
  destruct (to_string (assoc "account" (body req))) as [e|_]; [now left|].
  destruct (remote W [] (directory_fetch cfg)) as [data| |] eqn:Hdir;
    try (right; left; reflexivity).
  destruct data as [| | | |toml| |]; cbn [str_match]; try (right; left; reflexivity).
  destruct (match_key _ toml) as [transferServer|] eqn:Hkey; [|right; left; reflexivity].
  right. right. exists transferServer. split; [now exists toml|].
  fold (info_fetch transferServer).
  destruct (remote W _ (info_fetch transferServer)); try (left; reflexivity).
  right. cbn [app]. steps; reflexivity.
Qed.

Lemma sep24_transaction_log (W : World) (cfg : Config) (jwtToken : string) (req : Request) :
  let log := snd (sep24_transaction W cfg jwtToken req []) in
  log = [] \/ log = [directory_fetch cfg] \/
  exists transferServer,
    advertised W cfg "TRANSFER_SERVER_SEP0024" transferServer /\
    log = [directory_fetch cfg; status_query jwtToken req transferServer].
Proof.
  unfold sep24_transaction. cbv zeta. rewrite try_catch_log.
  unfold_monad. cbn [app]. fold (directory_fetch cfg).
  destruct (negb _); [now left|].
  destruct (to_string (assoc "id" (body req))) as [e|_]; [now left|].
  destruct (remote W [] (directory_fetch cfg)) as [data| |] eqn:Hdir;
    try (right; left; reflexivity).
  destruct data as [| | | |toml| |]; cbn [str_match]; try (right; left; reflexivity).
  destruct (match_key _ toml) as [transferServer|] eqn:Hkey; [|right; left; reflexivity].
  right. right. exists transferServer. split; [now exists toml|].
  cbn [app]. steps; try reflexivity.
  all: step_truthy; steps; reflexivity.
Qed.

(** ** Terminal detection in the front end *)

Lemma is_str_eq (want : string) (v : value) : is_str want v = true <-> v = Str want.
Proof.
  destruct v; cbn [is_str]; split; intros H; try discriminate.
  - apply String.eqb_eq in H. now subst.
  - injection H as ->. apply String.eqb_refl.
Qed.

(** C2, as the code has it.  After a status poll that the back end answers
    with a transaction, the session is Terminal exactly when the returned
    status is the string completed; for every other status, the string
    error included, the session is Polling. *)
Theorem terminal_iff_completed (st : State) (response : Response) (s : value) :
  ok response = true ->
  prop (json response) "status" = inr s ->
  (polled st response = Terminal <-> s = Str "completed") /\
  (s <> Str "completed" -> polled st response = Polling).
Proof.
  intros Hok Hs. unfold polled, checkTransactionStatus.
  rewrite Hok, Hs. cbn [negb sep24Step].
  destruct (is_str "completed" s) eqn:E.
  - apply is_str_eq in E. subst s. split; [now split|]. intros H; now elim H.
  - assert (Hne : s <> Str "completed").
    { intros H. apply is_str_eq in H. congruence. }
    split; [split; intros H; [discriminate | contradiction] | reflexivity].
Qed.

Lemma terminal_iff_completed_witness :
  let response :=
    {| status := 200; json := Obj [("id", Str "tx1"); ("status", Str "completed")] |} in
  (polled idle response = Terminal <-> Str "completed" = Str "completed") /\
  (Str "completed" <> Str "completed" -> polled idle response = Polling).
Proof.
  intros response.
  apply (terminal_iff_completed idle response (Str "completed")); reflexivity.
Defined.

(** A poll that returns the status error leaves the session in Polling: it
    does not become Terminal. *)
Lemma error_status_keeps_polling :
  let response :=
    {| status := 200; json := Obj [("id", Str "tx1"); ("status", Str "error")] |} in
  polled idle response = Polling /\ polled idle response <> Terminal.
Proof. split; [reflexivity | discriminate]. Qed.

(** ** Co-signing *)

Lemma sig_eqb_refl (d : DecoratedSignature) : sig_eqb d d = true.
Proof. unfold sig_eqb. now rewrite !String.eqb_refl. Qed.

Lemma count_sig_app (d : DecoratedSignature) (l1 l2 : list DecoratedSignature) :
  count_sig d (l1 ++ l2) = count_sig d l1 + count_sig d l2.
Proof.
  induction l1 as [|x l1 IH]; cbn [count_sig app]; [reflexivity|].
  rewrite IH. lia.
Qed.

(** What [coSign] returns when it returns a transaction. *)
Lemma coSign_inv (W : World) (key : string) (signedTransaction passphrase : value)
      (txn : Transaction) :
  coSign W key signedTransaction passphrase = inr txn ->
  exists xdr env k,
    signedTransaction = Str xdr /\
    fromXDR (sdk W) xdr = inr env /\
    fromSecret (sdk W) key = inr k /\
    determine_network passphrase = inr (Str (networkPassphrase txn)) /\
    tx txn = env_tx env /\
    signatures txn =
      (env_signatures env ++
       [origin_signature W k (networkPassphrase txn) (env_tx env)])%list.
Proof.
  unfold coSign, new_Transaction. intros H.
  destruct (determine_network passphrase) as [e|network] eqn:Hn; [discriminate|].
  destruct signedTransaction as [| | | |xdr| |]; try discriminate.
  destruct (fromXDR (sdk W) xdr) as [m|env] eqn:Hx; [discriminate|].
  destruct network as [| | | |np| |]; try discriminate.
  destruct (fromSecret (sdk W) key) as [m|k] eqn:Hk; [discriminate|].
  injection H as <-. exists xdr, env, k. cbn [tx signatures networkPassphrase sign].
  unfold origin_signature. auto 10.
Qed.

(** The network [determine_network] picks for a string. *)
Lemma determine_network_Str (s : string) :
  determine_network (Str s) =
  inr (Str (if str_includes "Test" s then Networks.TESTNET
            else if str_includes "Public" s then Networks.PUBLIC
            else s)).
Proof.
  unfold determine_network, includes.
  destruct (str_includes "Test" s); [reflexivity|].
  now destruct (str_includes "Public" s).
Qed.

(** C4, as the code has it.  When co-signing produces a transaction, the
    network the envelope was parsed under, which is also the network the
    server's signature is made under, is the one [determine_network] picks:
    for a passphrase string containing Test it is the SDK's test-network
    passphrase, otherwise for one containing Public the SDK's public-network
    passphrase, and only otherwise the caller's passphrase itself. *)
Theorem coSign_network (W : World) (key : string) (signedTransaction passphrase : value)
        (txn : Transaction) :
  coSign W key signedTransaction passphrase = inr txn ->
  determine_network passphrase = inr (Str (networkPassphrase txn)) /\
  (forall s, passphrase = Str s ->
             networkPassphrase txn =
             (if str_includes "Test" s then Networks.TESTNET
              else if str_includes "Public" s then Networks.PUBLIC
              else s)) /\
  (forall s, passphrase = Str s ->
             str_includes "Test" s = false -> str_includes "Public" s = false ->
             networkPassphrase txn = s) /\
  exists k,
    fromSecret (sdk W) key = inr k /\
    last (signatures txn) (origin_signature W k (networkPassphrase txn) (tx txn)) =
    origin_signature W k (networkPassphrase txn) (tx txn).
Proof.
  intros H. destruct (coSign_inv _ _ _ _ _ H) as (xdr & env & k & _ & _ & Hk & Hn & Ht & Hs).
  assert (Hpick : forall s, passphrase = Str s ->
                            networkPassphrase txn =
                            (if str_includes "Test" s then Networks.TESTNET
                             else if str_includes "Public" s then Networks.PUBLIC
                             else s)).
  { intros s ->. rewrite determine_network_Str in Hn. now injection Hn as <-. }
  split; [exact Hn|]. split; [exact Hpick|]. split.
  - intros s Hp H1 H2. rewrite (Hpick s Hp), H1, H2. reflexivity.
  - exists k. split; [assumption|]. rewrite Hs, Ht. apply last_last.
Qed.

Lemma coSign_network_witness :
  let W := Demo.world Demo.auth_line Demo.token_reply 0 in
  network_used (coSign W "SORIGIN" (Str "envelope+GSUBJECT") (Str "Standalone Network"))
  = Some "Standalone Network".
Proof.
  intros W.
  destruct (coSign W "SORIGIN" (Str "envelope+GSUBJECT") (Str "Standalone Network"))
    as [e|txn] eqn:E; [discriminate E|].
  cbn [network_used]. f_equal.
  exact (proj1 (proj2 (proj2 (coSign_network W "SORIGIN" (Str "envelope+GSUBJECT")
                                (Str "Standalone Network") txn E)))
               "Standalone Network" eq_refl eq_refl eq_refl).
Defined.

(** The passphrase of the future-net contains Test, so an envelope supplied
    with it is parsed and signed under the test-network passphrase, which is
    a different string. *)
Lemma futurenet_passphrase_is_replaced :
  let W := Demo.world Demo.auth_line Demo.token_reply 0 in
  let supplied := "Test SDF Future Network ; October 2022" in
  network_used (coSign W "SORIGIN" (Str "envelope+GSUBJECT") (Str supplied))
  = Some "Test SDF Network ; September 2015" /\
  "Test SDF Network ; September 2015" <> supplied.
Proof. split; [reflexivity | discriminate]. Qed.

(** ** Submission *)

Lemma sep10_submit_log (W : World) (cfg : Config) (req : Request) :
  let log := snd (sep10_submit W cfg req []) in
  log = [] \/ log = [directory_fetch cfg] \/
  exists key txn endpoint,
    CLIENT_SIGNING_KEY cfg = Some key /\
    coSign W key (assoc "signedTransaction" (body req))
           (assoc "networkPassphrase" (body req)) = inr txn /\
    advertised W cfg "WEB_AUTH_ENDPOINT" endpoint /\
    log = [directory_fetch cfg; submission W endpoint txn].
Proof.
  unfold sep10_submit. unfold_monad. cbn [app]. fold (directory_fetch cfg).
  destruct (negb _ || _); [now left|].
  destruct (CLIENT_SIGNING_KEY cfg) as [[|a key]|] eqn:Hkey; try (now left).
  destruct (coSign W _ _ _) as [e|txn] eqn:Hsign; [now left|].
  destruct (remote W [] (directory_fetch cfg)) as [data| |] eqn:Hdir;
    try (right; left; reflexivity).
  destruct data; cbn [str_match]; try (right; left; reflexivity).
  destruct (match_key _ s) as [endpoint|] eqn:Hm; [|right; left; reflexivity].
  right. right. exists (String a key), txn, endpoint.
  repeat split; [assumption | now exists s |].
  cbn [app]. fold (submission W endpoint txn). steps; reflexivity.
Qed.

Lemma sep10_submit_run (W : World) (cfg : Config) (req : Request) (key : string)
      (txn : Transaction) (toml endpoint : string) :
  missing "signedTransaction" req = false ->
  missing "networkPassphrase" req = false ->
  CLIENT_SIGNING_KEY cfg = Some key -> key <> EmptyString ->
  coSign W key (assoc "signedTransaction" (body req))
         (assoc "networkPassphrase" (body req)) = inr txn ->
  remote W [] (directory_fetch cfg) = Ok (Str toml) ->
  match_key "WEB_AUTH_ENDPOINT" toml = Some endpoint ->
  serve W cfg post_sep10_submit req =
  (inr (submit_outcome (remote W [directory_fetch cfg] (submission W endpoint txn))),
   [directory_fetch cfg; submission W endpoint txn]).
Proof.
  unfold missing. intros Hs Hn Hkey Hne Hsign Hdir Hm.
  unfold serve, dispatch, sep10_submit. unfold_monad. cbn [app].
  fold (directory_fetch cfg).
  rewrite Hs, Hn, Hkey. cbn [negb orb].
  destruct key as [|a key]; [contradiction|].
  rewrite Hsign, Hdir. cbn [str_match]. rewrite Hm. cbn [app].
  fold (submission W endpoint txn). unfold submit_outcome, failed.
  steps; reflexivity.
Qed.

(** C3, as the code has it.  Every envelope the handler POSTs to the anchor
    is the received envelope with its signatures unchanged and in order,
    followed by one signature of the server's key: co-signing does not look
    at the signatures already present, so the server's signature occurs once
    more than it did in the received envelope. *)
Theorem submitted_signatures (W : World) (cfg : Config) (req : Request) (c : call) :
  In c (snd (serve W cfg post_sep10_submit req)) ->
  is_post c = true ->
  exists key xdr env k txn endpoint,
    CLIENT_SIGNING_KEY cfg = Some key /\
    fromSecret (sdk W) key = inr k /\
    assoc "signedTransaction" (body req) = Str xdr /\
    fromXDR (sdk W) xdr = inr env /\
    c = submission W endpoint txn /\
    tx txn = env_tx env /\
    let by_server := origin_signature W k (networkPassphrase txn) (env_tx env) in
    signatures txn = (env_signatures env ++ [by_server])%list /\
    count_sig by_server (signatures txn) = S (count_sig by_server (env_signatures env)).
Proof.
  unfold serve, dispatch. intros Hc Hp.
  destruct (sep10_submit_log W cfg req) as [E|[E|(key & txn & endpoint & Hkey & Hsign & _ & E)]];
    rewrite E in Hc; cbn [In] in Hc.
  - contradiction.
  - destruct Hc as [<-|[]]. discriminate Hp.
  - destruct Hc as [<-|[<-|[]]]; [discriminate Hp|].
    destruct (coSign_inv _ _ _ _ _ Hsign) as (xdr & env & k & Hx & Hd & Hk & _ & Ht & Hs).
    exists key, xdr, env, k, txn, endpoint. cbv zeta.
    repeat split; try assumption.
    rewrite Hs, count_sig_app. cbn [count_sig]. rewrite sig_eqb_refl. lia.
Qed.

Lemma submitted_signatures_witness :
  let W := Demo.world Demo.auth_line Demo.token_reply 0 in
  let req := Demo.submit_request "envelope+GSUBJECT" Networks.TESTNET in
  let c := AxiosPost "https://anchor/auth"
             (Obj [("transaction", Str "envelope+GSUBJECT+GORIGIN")]) json_headers in
  exists key xdr env k txn endpoint,
    CLIENT_SIGNING_KEY Demo.cfg = Some key /\
    fromSecret (sdk W) key = inr k /\
    assoc "signedTransaction" (body req) = Str xdr /\
    fromXDR (sdk W) xdr = inr env /\
    c = submission W endpoint txn /\
    tx txn = env_tx env /\
    let by_server := origin_signature W k (networkPassphrase txn) (env_tx env) in
    signatures txn = (env_signatures env ++ [by_server])%list /\
    count_sig by_server (signatures txn) = S (count_sig by_server (env_signatures env)).
Proof.
  intros W req c.
  apply (submitted_signatures W Demo.cfg req c); [|reflexivity].
  cbn. right. left. reflexivity.
Defined.

(** An envelope that already bears the server's signature is co-signed all
    the same, and the envelope submitted carries that signature twice; an
    envelope without any signature is submitted with the server's alone. *)
Lemma cosigned_twice :
  let W := Demo.world Demo.auth_line Demo.token_reply 0 in
  let req := Demo.submit_request "envelope+GSUBJECT+GORIGIN" Networks.TESTNET in
  let unsigned := Demo.submit_request "envelope" Networks.TESTNET in
  coSign W "SORIGIN" (Str "envelope+GSUBJECT+GORIGIN") (Str Networks.TESTNET)
  = inr {| tx := Demo.challenge;
           signatures := [Demo.by_subject; Demo.by_origin; Demo.by_origin];
           networkPassphrase := Networks.TESTNET |} /\
  count_sig Demo.by_origin [Demo.by_subject; Demo.by_origin; Demo.by_origin] = 2 /\
  serve W Demo.cfg post_sep10_submit req
  = (inr (respond 200 [("token", Str "jwt")]),
     [directory_fetch Demo.cfg;
      AxiosPost "https://anchor/auth"
        (Obj [("transaction", Str "envelope+GSUBJECT+GORIGIN+GORIGIN")]) json_headers]) /\
  snd (serve W Demo.cfg post_sep10_submit unsigned)
  = [directory_fetch Demo.cfg;
     AxiosPost "https://anchor/auth"
       (Obj [("transaction", Str "envelope+GORIGIN")]) json_headers].
Proof. repeat split. Qed.

(** ** Expiry *)

(** C1, as the code has it.  The handler never compares the time bounds of
    the envelope with the clock.  A request that carries an expired envelope
    and is otherwise serviceable (both fields present, a signing key
    configured, the envelope co-signed, the directory advertising the auth
    endpoint) has the server's signature applied and is submitted: the log
    is the directory fetch followed by exactly one POST of the co-signed
    envelope, and the answer is made from the anchor's reply to that POST. *)
Theorem expired_envelope_is_submitted (W : World) (cfg : Config) (req : Request)
        (env : Envelope) (key : string) (txn : Transaction) (toml endpoint : string) :
  carried W req = Some env ->
  expired W (env_tx env) = true ->
  missing "signedTransaction" req = false ->
  missing "networkPassphrase" req = false ->
  CLIENT_SIGNING_KEY cfg = Some key -> key <> EmptyString ->
  coSign W key (assoc "signedTransaction" (body req))
         (assoc "networkPassphrase" (body req)) = inr txn ->
  remote W [] (directory_fetch cfg) = Ok (Str toml) ->
  match_key "WEB_AUTH_ENDPOINT" toml = Some endpoint ->
  let post := submission W endpoint txn in
  serve W cfg post_sep10_submit req =
  (inr (submit_outcome (remote W [directory_fetch cfg] post)), [directory_fetch cfg; post]) /\
  tx txn = env_tx env /\
  length (signatures txn) = S (length (env_signatures env)).
Proof.
  intros Hcar Hexp Hst Hn Hkey Hne Hsign Hdir Hm post.
  destruct (coSign_inv _ _ _ _ _ Hsign) as (xdr & env' & k & Hx & Hd & Hk & _ & Ht & Hs).
  unfold carried in Hcar. rewrite Hx, Hd in Hcar. injection Hcar as ->.
  split; [|split].
  - now apply sep10_submit_run with (key := key) (toml := toml).
  - exact Ht.
  - rewrite Hs, length_app. cbn [length]. lia.
Qed.

Lemma expired_envelope_is_submitted_witness :
  let W := Demo.world Demo.auth_line Demo.token_reply 2000 in
  let req := Demo.submit_request "envelope+GSUBJECT" Networks.TESTNET in
  let txn := {| tx := Demo.challenge;
                signatures := [Demo.by_subject; Demo.by_origin];
                networkPassphrase := Networks.TESTNET |} in
  let post := submission W "https://anchor/auth" txn in
  serve W Demo.cfg post_sep10_submit req =
  (inr (submit_outcome (remote W [directory_fetch Demo.cfg] post)),
   [directory_fetch Demo.cfg; post]) /\
  tx txn = Demo.challenge /\
  length (signatures txn) = 2.
Proof.
  intros W req txn post.
  apply (expired_envelope_is_submitted W Demo.cfg req
           {| env_tx := Demo.challenge; env_signatures := [Demo.by_subject] |}
           "SORIGIN" txn Demo.auth_line "https://anchor/auth");
    try reflexivity.
  discriminate.
Defined.

(** At time 2000 a challenge whose not-after bound is 1900 has expired; the
    handler co-signs it, POSTs it to the anchor and returns the token. *)
Lemma expired_envelope_reaches_anchor :
  let W := Demo.world Demo.auth_line Demo.token_reply 2000 in
  let req := Demo.submit_request "envelope+GSUBJECT" Networks.TESTNET in
  option_map (fun env => expired W (env_tx env)) (carried W req) = Some true /\
  serve W Demo.cfg post_sep10_submit req
  = (inr (respond 200 [("token", Str "jwt")]),
     [directory_fetch Demo.cfg;
      AxiosPost "https://anchor/auth"
        (Obj [("transaction", Str "envelope+GSUBJECT+GORIGIN")]) json_headers]) /\
  length (filter is_post (snd (serve W Demo.cfg post_sep10_submit req))) = 1.
Proof. repeat split. Qed.

(** ** Rejections by the remote party *)

Lemma failed_rejected (kind : string) (data : value) (message : string) :
  failed kind (AxiosError (Some data) message) =
  {| status := 500;
     json := Obj [("error", Str kind);
                  ("details", if truthy data then data else Str message)] |}.
Proof.
  unfold failed, respond, object, details, or.
  destruct data; cbn [truthy filter snd]; try reflexivity.
  - now destruct b.
  - now destruct (n =? 0)%Z.
  - now destruct (s =? EmptyString).
Qed.

Ltac set_expected :=
  match goal with
  | |- _ -> _ = inr ?answer => set (expected := answer)
  end.

Ltac rejected_leaf i :=
  intros H; destruct i as [|[|[|[|i]]]];
  cbn [reply_at nth_error firstn snd fst] in H |- *;
  first
    [ discriminate H
    | injection H as H;
      match goal with
      | E : remote _ _ _ = _ |- _ =>
          let H' := fresh in
          pose proof (eq_trans (eq_sym E) H) as H';
          first [ discriminate H'
                | injection H' as -> ->; f_equal;
                  match goal with
                  | |- _ = ?expected => subst expected
                  end;
                  apply failed_rejected ]
      end ].

(** C5, as the code has it.  On each of the four routes, when the remote
    party rejects any of the calls made, the caller gets status 500 with the
    route's error message and, as details, the payload of the rejection
    unchanged whenever that payload is truthy; a falsy payload (an empty
    body, null, false, zero) is replaced by the message of the transport
    error. *)
Theorem rejection_details (W : World) (cfg : Config) (r : route) (req : Request)
        (i : nat) (data : value) (message : string) :
  reply_at W (snd (serve W cfg r req)) i = Some (Rejected data message) ->
  fst (serve W cfg r req) =
  inr {| status := 500;
         json := Obj [("error", Str (error_kind r req));
                      ("details", if truthy data then data else Str message)] |}.
Proof.
  unfold serve, dispatch.
  destruct r; cbn [error_kind].
  - set_expected. unfold sep10_get_challenge. unfold_monad. cbn [app]. run.
    all: rejected_leaf i.
  - set_expected. unfold sep10_submit. unfold_monad. cbn [app]. run.
    all: rejected_leaf i.
  - (* a call is only made for a mode that is a string, which the catch
       block prints as it is *)
    unfold verifyToken, sep24_start, printed. unfold_monad. cbn [app].
    destruct (assoc "mode" (body req)) as [| | | |mode| |]; cbn [toUpperCase_defined].
    5: cbn [to_string].
    all: set_expected; run.
    all: rejected_leaf i.
  - set_expected. unfold verifyToken, sep24_transaction. unfold_monad. cbn [app]. run.
    all: rejected_leaf i.
Qed.

Lemma rejection_details_witness :
  let payload := Obj [("error", Str "The challenge has expired")] in
  let W := Demo.world Demo.auth_line (Rejected payload "Request failed with status code 400") 0 in
  let req := Demo.submit_request "envelope+GSUBJECT" Networks.TESTNET in
  fst (serve W Demo.cfg post_sep10_submit req) =
  inr {| status := 500;
         json := Obj [("error", Str "Failed to submit transaction");
                      ("details", payload)] |}.
Proof.
  intros payload W req.
  apply (rejection_details W Demo.cfg post_sep10_submit req 1 payload
           "Request failed with status code 400").
  reflexivity.
Defined.

(** The anchor rejects the submission with an empty body: the details the
    caller gets are the message of the transport error, not that payload. *)
Lemma empty_rejection_payload_is_replaced :
  let payload := Str EmptyString in
  let W := Demo.world Demo.auth_line (Rejected payload "Request failed with status code 400") 0 in
  let req := Demo.submit_request "envelope+GSUBJECT" Networks.TESTNET in
  reply_at W (snd (serve W Demo.cfg post_sep10_submit req)) 1
  = Some (Rejected payload "Request failed with status code 400") /\
  fst (serve W Demo.cfg post_sep10_submit req)
  = inr {| status := 500;
           json := Obj [("error", Str "Failed to submit transaction");
                        ("details", Str "Request failed with status code 400")] |} /\
  Str "Request failed with status code 400" <> payload.
Proof. repeat split. discriminate. Qed.

(** ** Transfer initiation *)

Lemma serve_start_cases (W : World) (cfg : Config) (req : Request) :
  serve W cfg post_sep24_start req = (inr unauthorized, []) \/
  exists jwtToken,
    authorization req = Some ("Bearer " ++ jwtToken) /\
    serve W cfg post_sep24_start req = sep24_start W cfg jwtToken req [].
Proof.
  unfold serve, dispatch, verifyToken.
  destruct (authorization req) as [authHeader|]; [|now left].
  destruct (startsWith authHeader "Bearer ") eqn:Hp.
  - right. exists (substring_from 7 authHeader). split.
    + f_equal. exact (prefix_split "Bearer " authHeader Hp).
    + destruct authHeader; [discriminate Hp|reflexivity].
  - left. now rewrite orb_true_r.
Qed.

Lemma serve_start_pass (W : World) (cfg : Config) (req : Request) (jwtToken : string) :
  authorization req = Some ("Bearer " ++ jwtToken) ->
  serve W cfg post_sep24_start req = sep24_start W cfg jwtToken req [].
Proof.
  intros Hauth. unfold serve, dispatch, verifyToken. rewrite Hauth.
  unfold startsWith. rewrite prefix_append.
  change 7 with (String.length "Bearer "). now rewrite substring_from_append.
Qed.

Lemma printable_inv (v : value) :
  printable v = true -> exists text, to_string v = inr text.
Proof.
  unfold printable. destruct (to_string v) as [e|text]; [discriminate|].
  intros _. now exists text.
Qed.

(** What a well-formed request is made of. *)
Lemma well_formed_start_inv (req : Request) :
  well_formed_start req = true ->
  exists mode asset amount account,
    assoc "mode" (body req) = Str mode /\
    truthy (Str mode) = true /\
    truthy (assoc "assetCode" (body req)) = true /\
    truthy (assoc "account" (body req)) = true /\
    to_string (assoc "assetCode" (body req)) = inr asset /\
    to_string (or (assoc "amount" (body req)) (Str "not specified")) = inr amount /\
    to_string (assoc "account" (body req)) = inr account.
Proof.
  unfold well_formed_start, missing. intros Hwf.
  apply andb_prop in Hwf as [Hwf Hpacc]. apply andb_prop in Hwf as [Hwf Hpamount].
  apply andb_prop in Hwf as [Hwf Hpasset]. apply andb_prop in Hwf as [Hwf Hacc].
  apply andb_prop in Hwf as [Hwf Hasset]. apply andb_prop in Hwf as [Hstr Hmode].
  rewrite negb_involutive in Hacc, Hasset, Hmode.
  destruct (printable_inv _ Hpasset) as (asset & Ea).
  destruct (printable_inv _ Hpamount) as (amount & Em).
  destruct (printable_inv _ Hpacc) as (account & Ec).
  destruct (assoc "mode" (body req)) as [| | | |mode| |]; try discriminate Hstr.
  exists mode, asset, amount, account. auto 10.
Qed.


Lemma sep24_start_run (W : World) (cfg : Config) (req : Request)
      (jwtToken toml transferServer : string) (info : value) :
  well_formed_start req = true ->
  remote W [] (directory_fetch cfg) = Ok (Str toml) ->
  match_key "TRANSFER_SERVER_SEP0024" toml = Some transferServer ->
  remote W [directory_fetch cfg] (info_fetch transferServer) = Ok info ->
  let post := initiation jwtToken req transferServer in
  sep24_start W cfg jwtToken req [] =
  (inr (start_outcome req
          (remote W [directory_fetch cfg; info_fetch transferServer] post)),
   [directory_fetch cfg; info_fetch transferServer; post]).
Proof.
  intros Hwf Hdir Hm Hinfo.
  destruct (well_formed_start_inv req Hwf)
    as (mode & asset & amount & account & Hmd & Hmode & Hasset & Hacc & Ea & Em & Ec).
  unfold sep24_start. unfold_monad. cbn [app]. fold (directory_fetch cfg).
  unfold initiation, interactive_endpoint, start_params, start_outcome, failed, printed.
  cbn [error_kind app].
  rewrite Hmd, Hmode, Hasset, Hacc, Ea, Em, Ec. cbn [negb orb toUpperCase_defined to_string].
  rewrite Hdir. cbn [str_match]. rewrite Hm. cbn [app].
  fold (info_fetch transferServer). rewrite Hinfo. cbn [app].
  steps; reflexivity.
Qed.



(** ** The initiation request *)

(** C8, as the code has it.  The body of every initiation POST holds the
    asset code and the account as received, followed by the amount as
    received when the amount is truthy, and by nothing when the amount is
    falsy; an absent amount is falsy, and so are null, false, zero and the
    empty string. *)
Theorem amount_passthrough (W : World) (cfg : Config) (req : Request)
        (url : string) (data : value) (hdrs : headers) :
  In (AxiosPost url data hdrs) (snd (serve W cfg post_sep24_start req)) ->
  let amount := assoc "amount" (body req) in
  let required := [("asset_code", assoc "assetCode" (body req));
                   ("account", assoc "account" (body req))] in
  (truthy amount = true -> data = Obj (required ++ [("amount", amount)])%list) /\
  (truthy amount = false -> data = Obj required) /\
  (amount = Undefined -> data = Obj required).
Proof.
  intros Hc amount required.
  assert (Hdata : data = Obj (start_params req)).
  { destruct (serve_start_cases W cfg req) as [E|(jwt & _ & E)]; rewrite E in Hc;
      [contradiction|].
    destruct (sep24_start_log W cfg jwt req) as [L|[L|(ts & _ & [L|L])]];
      rewrite L in Hc; cbn [In] in Hc; unfold directory_fetch, info_fetch, initiation in Hc;
      intuition congruence. }
  rewrite Hdata. unfold start_params. fold amount. fold required.
  repeat split.
  - now intros ->.
  - intros ->. now rewrite app_nil_r.
  - intros E. rewrite E. cbn [truthy]. now rewrite app_nil_r.
Qed.

Lemma amount_passthrough_witness :
  let W := Demo.world Demo.transfer_line Demo.interactive_reply 0 in
  let req := Demo.start_request (Some "Bearer jwt") (start_fields (Str "deposit") (Str "100")) in
  let post := initiation "jwt" req "https://anchor/sep24" in
  In post (snd (serve W Demo.cfg post_sep24_start req)) /\
  Obj (start_params req)
  = Obj [("asset_code", Str "USDC"); ("account", Str "GSUBJECT"); ("amount", Str "100")].
Proof.
  intros W req post.
  assert (Hin : In post (snd (serve W Demo.cfg post_sep24_start req))).
  { cbn. right. right. left. reflexivity. }
  split; [exact Hin|].
  exact (proj1 (amount_passthrough W Demo.cfg req _ _ _ Hin) eq_refl).
Defined.

(** An amount of zero is present in the request and absent from the body of
    the initiation POST. *)
Lemma zero_amount_is_dropped :
  let W := Demo.world Demo.transfer_line Demo.interactive_reply 0 in
  let req := Demo.start_request (Some "Bearer jwt") (start_fields (Str "deposit") (Num 0)) in
  assoc "amount" (body req) = Num 0 /\
  snd (serve W Demo.cfg post_sep24_start req)
  = [directory_fetch Demo.cfg; info_fetch "https://anchor/sep24";
     AxiosPost "https://anchor/sep24/transactions/deposit/interactive"
       (Obj [("asset_code", Str "USDC"); ("account", Str "GSUBJECT")])
       [("Authorization", "Bearer jwt"); ("Content-Type", "application/json")]].
Proof. split; reflexivity. Qed.

(** C9, as the code has it.  Let the mode be anything but the string
    deposit.  Then every POST the initiate call makes goes to the withdraw
    interactive endpoint of the advertised transfer server.  And the call
    does get there for every mode that is a non-empty string: when the
    request passes the local checks (which a mode that is not a string does
    not), the directory advertises the transfer server and the info fetch
    succeeds, the initiation is POSTed to the withdraw endpoint. *)
Theorem non_deposit_goes_to_withdraw (W : World) (cfg : Config) (req : Request) :
  assoc "mode" (body req) <> Str "deposit" ->
  (forall url data hdrs,
      In (AxiosPost url data hdrs) (snd (serve W cfg post_sep24_start req)) ->
      exists transferServer,
        advertised W cfg "TRANSFER_SERVER_SEP0024" transferServer /\
        url = transferServer ++ "/transactions/withdraw/interactive") /\
  (forall jwtToken toml transferServer info,
      authorization req = Some ("Bearer " ++ jwtToken) ->
      well_formed_start req = true ->
      remote W [] (directory_fetch cfg) = Ok (Str toml) ->
      match_key "TRANSFER_SERVER_SEP0024" toml = Some transferServer ->
      remote W [directory_fetch cfg] (info_fetch transferServer) = Ok info ->
      In (AxiosPost (transferServer ++ "/transactions/withdraw/interactive")
                    (Obj (start_params req))
                    [("Authorization", "Bearer " ++ jwtToken);
                     ("Content-Type", "application/json")])
         (snd (serve W cfg post_sep24_start req))).
Proof.
  intros Hmode.
  assert (Hend : interactive_endpoint (assoc "mode" (body req))
                 = "/transactions/withdraw/interactive").
  { unfold interactive_endpoint.
    destruct (is_str "deposit" (assoc "mode" (body req))) eqn:E; [|reflexivity].
    apply is_str_eq in E. contradiction. }
  split.
  - intros url data hdrs Hc.
    destruct (serve_start_cases W cfg req) as [E|(jwt & _ & E)]; rewrite E in Hc;
      [contradiction|].
    destruct (sep24_start_log W cfg jwt req) as [L|[L|(ts & Hadv & [L|L])]];
      rewrite L in Hc; cbn [In] in Hc; unfold directory_fetch, info_fetch in Hc;
      try (intuition congruence).
    exists ts. split; [exact Hadv|].
    destruct Hc as [Hc|[Hc|[Hc|[]]]]; try discriminate Hc.
    unfold initiation in Hc. rewrite Hend in Hc. now injection Hc as <- _ _.
  - intros jwt toml ts info Hauth Hwf Hdir Hm Hinfo.
    rewrite (serve_start_pass W cfg req jwt Hauth).
    rewrite (sep24_start_run W cfg req jwt toml ts info Hwf Hdir Hm Hinfo).
    cbn [snd]. unfold initiation, bearer. rewrite Hend.
    right. right. left. reflexivity.
Qed.

Lemma non_deposit_goes_to_withdraw_witness :
  let W := Demo.world Demo.transfer_line Demo.interactive_reply 0 in
  let req := Demo.start_request (Some "Bearer jwt") (start_fields (Str "sell") (Str "100")) in
  In (AxiosPost "https://anchor/sep24/transactions/withdraw/interactive"
                (Obj (start_params req))
                [("Authorization", "Bearer jwt"); ("Content-Type", "application/json")])
     (snd (serve W Demo.cfg post_sep24_start req)).
Proof.
  intros W req.
  assert (Hmode : assoc "mode" (body req) <> Str "deposit") by discriminate.
  exact (proj2 (non_deposit_goes_to_withdraw W Demo.cfg req Hmode)
               "jwt" Demo.transfer_line "https://anchor/sep24" (Obj [])
               eq_refl eq_refl eq_refl eq_refl eq_refl).
Defined.

(** A mode that is present and is the number 5, not the string deposit,
    is not routed to the withdraw endpoint: the first log line throws, the
    caller gets status 500 and nothing is posted. *)
Lemma numeric_mode_is_not_routed :
  let W := Demo.world Demo.transfer_line Demo.interactive_reply 0 in
  let req := Demo.start_request (Some "Bearer jwt") (start_fields (Num 5) (Str "100")) in
  missing "mode" req = false /\
  is_str "deposit" (assoc "mode" (body req)) = false /\
  serve W Demo.cfg post_sep24_start req
  = (inr {| status := 500;
            json := Obj [("error", Str "Failed to start 5");
                         ("details", Str "mode.toUpperCase is not a function")] |}, []) /\
  filter is_post (snd (serve W Demo.cfg post_sep24_start req)) = [].
Proof. repeat split. Qed.

(** ** The authorization gate *)

(** The status handler gets to its query whenever the id is present and can
    be printed and the directory advertises the transfer server. *)
Lemma sep24_transaction_query (W : World) (cfg : Config) (req : Request)
      (jwtToken toml transferServer : string) :
  missing "id" req = false ->
  printable (assoc "id" (body req)) = true ->
  remote W [] (directory_fetch cfg) = Ok (Str toml) ->
  match_key "TRANSFER_SERVER_SEP0024" toml = Some transferServer ->
  snd (sep24_transaction W cfg jwtToken req []) =
  [directory_fetch cfg; status_query jwtToken req transferServer].
Proof.
  unfold missing. intros Hid Hprint Hdir Hm.
  destruct (printable_inv _ Hprint) as (text & Etext).
  unfold sep24_transaction. cbv zeta. rewrite try_catch_log.
  unfold_monad. cbn [app]. fold (directory_fetch cfg).
  rewrite Hid, Etext, Hdir. cbn [str_match]. rewrite Hm. cbn [app].
  fold (status_query jwtToken req transferServer).
  steps; try reflexivity.
  all: step_truthy; steps; reflexivity.
Qed.

(** C10. On the two routes behind [verifyToken], a request whose
    Authorization header is absent or does not begin with the prefix is
    answered with the 401 error and no remote call is made.  A header made of
    the prefix and any token at all passes: the handler runs with exactly
    that token; every remote call that carries an Authorization header
    carries the prefix followed by the same token; and whenever the request
    gets through to the transfer server (it passes the local checks of its
    handler, the directory advertises the transfer server and, for an
    initiation, the info fetch succeeds), the initiation or the status query
    is made and carries the prefix followed by that token. *)
Theorem verifyToken_gate (W : World) (cfg : Config) (r : route) (req : Request) :
  authenticated r = true ->
  ((forall token, authorization req <> Some ("Bearer " ++ token)) ->
   serve W cfg r req = (inr unauthorized, [])) /\
  (forall token,
      authorization req = Some ("Bearer " ++ token) ->
      dispatch W cfg r req = handler W cfg r token req /\
      (forall c v,
          In c (snd (serve W cfg r req)) ->
          In ("Authorization", v) (call_headers c) ->
          v = "Bearer " ++ token) /\
      (forall transferServer,
          gets_through W cfg r req transferServer ->
          In (forwarding r token req transferServer) (snd (serve W cfg r req)) /\
          In ("Authorization", "Bearer " ++ token)
             (call_headers (forwarding r token req transferServer)))).
Proof.
  intros Hr. split.
  - intros Hno.
    assert (Hgate : forall next, verifyToken req next [] = (inr unauthorized, [])).
    { intros next. unfold verifyToken.
      destruct (authorization req) as [authHeader|] eqn:Hauth; [|reflexivity].
      destruct (startsWith authHeader "Bearer ") eqn:Hp.
      - exfalso. apply (Hno (substring_from 7 authHeader)). f_equal.
        exact (prefix_split "Bearer " authHeader Hp).
      - now rewrite orb_true_r. }
    destruct r; try discriminate; apply Hgate.
  - intros token Hauth.
    assert (Hpass : forall next, verifyToken req next = next token).
    { intros next. unfold verifyToken. rewrite Hauth.
      unfold startsWith. rewrite prefix_append.
      change 7 with (String.length "Bearer "). now rewrite substring_from_append. }
    assert (Hd : dispatch W cfg r req = handler W cfg r token req).
    { destruct r; try discriminate; apply Hpass. }
    split; [exact Hd|]. split.
    + unfold serve. rewrite Hd. intros c v Hc Hv.
      destruct r; try discriminate; cbn [handler] in Hc.
      * destruct (sep24_start_log W cfg token req) as [E|[E|(ts & _ & [E|E])]];
          rewrite E in Hc; cbn [In] in Hc;
          intuition (subst;
                     cbn [In call_headers directory_fetch info_fetch initiation] in Hv;
                     unfold bearer in Hv; intuition congruence).
      * destruct (sep24_transaction_log W cfg token req) as [E|[E|(ts & _ & E)]];
          rewrite E in Hc; cbn [In] in Hc;
          intuition (subst;
                     cbn [In call_headers directory_fetch status_query] in Hv;
                     unfold bearer in Hv; intuition congruence).
    + intros ts [(toml & Hdir & Hm) Hlocal]. unfold serve. rewrite Hd.
      destruct r; try discriminate; cbn [handler forwarding].
      * destruct Hlocal as [Hwf (info & Hinfo)].
        rewrite (sep24_start_run W cfg req token toml ts info Hwf Hdir Hm Hinfo).
        split; [cbn; tauto | unfold initiation, bearer; cbn; tauto].
      * destruct Hlocal as [Hid Hprint].
        rewrite (sep24_transaction_query W cfg req token toml ts Hid Hprint Hdir Hm).
        split; [cbn; tauto | unfold status_query, bearer; cbn; tauto].
Qed.

Lemma verifyToken_gate_witness :
  let W := Demo.world Demo.transfer_line Demo.interactive_reply 0 in
  let poll := Demo.start_request (Some "Bearer not a jwt") [("id", Str "tx1")] in
  let start := Demo.start_request (Some "Bearer ") (start_fields (Str "deposit") (Str "100")) in
  serve W Demo.cfg post_sep24_start
        (Demo.start_request None (start_fields (Str "deposit") (Str "100")))
  = (inr unauthorized, []) /\
  In (AxiosGet "https://anchor/sep24/transaction" [("id", Str "tx1")]
               [("Authorization", "Bearer not a jwt")])
     (snd (serve W Demo.cfg post_sep24_transaction poll)) /\
  In (AxiosPost "https://anchor/sep24/transactions/deposit/interactive"
                (Obj (start_params start))
                [("Authorization", "Bearer "); ("Content-Type", "application/json")])
     (snd (serve W Demo.cfg post_sep24_start start)).
Proof.
  intros W poll start.
  assert (Hadv : advertised W Demo.cfg "TRANSFER_SERVER_SEP0024" "https://anchor/sep24").
  { exists Demo.transfer_line. split; reflexivity. }
  split; [|split].
  - apply (verifyToken_gate W Demo.cfg post_sep24_start
             (Demo.start_request None (start_fields (Str "deposit") (Str "100"))) eq_refl).
    intros token; discriminate.
  - refine (proj1 (proj2 (proj2 (proj2 (verifyToken_gate W Demo.cfg post_sep24_transaction
                                          poll eq_refl)
                                       "not a jwt" eq_refl))
                         "https://anchor/sep24" _)).
    split; [exact Hadv|]. split; reflexivity.
  - refine (proj1 (proj2 (proj2 (proj2 (verifyToken_gate W Demo.cfg post_sep24_start
                                          start eq_refl)
                                       EmptyString eq_refl))
                         "https://anchor/sep24" _)).
    split; [exact Hadv|]. split; [reflexivity|]. exists (Obj []). reflexivity.
Defined.

(** * Further properties of the code *)

(** ** The string helpers *)

(** [includes] on strings is substring search. *)
Lemma str_includes_spec (needle s : string) :
  str_includes needle s = true <-> exists pre post, s = pre ++ needle ++ post.
Proof.
  split.
  - induction s as [|c s IH]; cbn [str_includes].
    + destruct (String.prefix needle EmptyString) eqn:P; [|discriminate].
      intros _. exists EmptyString, (substring_from (String.length needle) EmptyString).
      exact (prefix_split _ _ P).
    + destruct (String.prefix needle (String c s)) eqn:P.
      * intros _. exists EmptyString, (substring_from (String.length needle) (String c s)).
        exact (prefix_split _ _ P).
      * intros H. destruct (IH H) as (pre & post & ->).
        exists (String c pre), post. reflexivity.
  - intros (pre & post & ->). induction pre as [|c pre IH].
    + cbn [append]. destruct (needle ++ post) eqn:E; cbn [str_includes];
        rewrite <- E, prefix_append; reflexivity.
    + cbn [append str_includes].
      destruct (String.prefix needle (String c (pre ++ needle ++ post))); [reflexivity|].
      exact IH.
Qed.

(** ** The directory lookup *)

Lemma match_key_here (key s g : string) :
  match_here key s = Some g -> match_key key s = Some g.
Proof. intros H. destruct s; cbn [match_key]; now rewrite H. Qed.

Lemma span_unquoted_spec (s run rest : string) :
  span_unquoted s = (run, rest) ->
  s = run ++ rest /\ quote_free run = true /\
  (rest = EmptyString \/ exists rest', rest = String dquote rest').
Proof.
  revert run rest. induction s as [|c s IH]; intros run rest; cbn [span_unquoted].
  - intros H. injection H as <- <-. repeat split. now left.
  - destruct (Ascii.eqb_spec c dquote) as [->|Hc].
    + intros H. injection H as <- <-. repeat split. right. now exists s.
    + destruct (span_unquoted s) as [run' rest'] eqn:E.
      intros H. injection H as <- <-.
      destruct (IH run' rest' eq_refl) as (-> & Hq & Hr).
      repeat split; [|exact Hr].
      cbn [quote_free]. rewrite Hq.
      destruct (Ascii.eqb_spec c dquote); [contradiction|reflexivity].
Qed.

Lemma match_here_sound (key s v : string) :
  match_here key s = Some v ->
  v <> EmptyString /\ quote_free v = true /\ String.prefix key s = true.
Proof.
  unfold match_here.
  destruct (strip_prefix key s) as [r|] eqn:Hp; [|discriminate].
  apply strip_prefix_prefix in Hp.
  destruct (skip_spaces r) as [|c r1]; [discriminate|].
  destruct (Ascii.eqb c "="%char); [|discriminate].
  destruct (skip_spaces r1) as [|q r2]; [discriminate|].
  destruct (Ascii.eqb q dquote); [|discriminate].
  destruct (span_unquoted r2) as [run rest] eqn:E.
  destruct (span_unquoted_spec _ _ _ E) as (_ & Hq & _).
  destruct run as [|g gs]; [discriminate|].
  destruct rest; [discriminate|].
  intros H. injection H as <-. repeat split; [discriminate|exact Hq|exact Hp].
Qed.

(** X1. What the directory lookup returns is never empty and holds no
    double quote, and it is only returned for a document in which the key
    occurs. *)
Theorem match_key_sound (key s v : string) :
  match_key key s = Some v ->
  v <> EmptyString /\ quote_free v = true /\ str_includes key s = true.
Proof.
  induction s as [|c s IH]; cbn [match_key str_includes].
  - destruct (match_here key EmptyString) as [g|] eqn:E; [|discriminate].
    intros H. injection H as ->.
    destruct (match_here_sound _ _ _ E) as (Hv & Hq & Hp). now rewrite Hp.
  - destruct (match_here key (String c s)) as [g|] eqn:E.
    + intros H. injection H as ->.
      destruct (match_here_sound _ _ _ E) as (Hv & Hq & Hp). now rewrite Hp.
    + intros H. destruct (IH H) as (Hv & Hq & Hi).
      repeat split; [exact Hv|exact Hq|].
      now destruct (String.prefix key (String c s)).
Qed.

Lemma match_key_sound_witness :
  "https://anchor/auth" <> EmptyString /\
  quote_free "https://anchor/auth" = true /\
  str_includes "WEB_AUTH_ENDPOINT" Demo.auth_line = true.
Proof.
  exact (match_key_sound "WEB_AUTH_ENDPOINT" Demo.auth_line "https://anchor/auth" eq_refl).
Defined.

Lemma strip_prefix_append (p s : string) : strip_prefix p (p ++ s) = Some s.
Proof.
  induction p as [|a p IH]; cbn [strip_prefix append]; [reflexivity|].
  now rewrite Ascii.eqb_refl.
Qed.

Lemma skip_spaces_append (ws : string) (c : ascii) (s : string) :
  all_spaces ws = true -> is_space c = false ->
  skip_spaces (ws ++ String c s) = String c s.
Proof.
  intros Hws Hc. induction ws as [|w ws IH]; cbn [append skip_spaces].
  - now rewrite Hc.
  - cbn [all_spaces] in Hws. apply andb_prop in Hws as [Hw Hws].
    rewrite Hw. now apply IH.
Qed.

Lemma span_unquoted_append (v rest : string) :
  quote_free v = true ->
  span_unquoted (v ++ String dquote rest) = (v, String dquote rest).
Proof.
  intros Hq. induction v as [|c v IH]; cbn [append span_unquoted].
  - now rewrite Ascii.eqb_refl.
  - cbn [quote_free] in Hq. apply andb_prop in Hq as [Hc Hq].
    apply negb_true_iff in Hc. rewrite Hc, (IH Hq). reflexivity.
Qed.

(** X2. A document that begins with the key, optional white space, an
    equals sign, optional white space and a non-empty value between double
    quotes yields exactly that value, whatever follows. *)
Theorem match_key_assignment (key ws1 ws2 v rest : string) :
  all_spaces ws1 = true -> all_spaces ws2 = true ->
  v <> EmptyString -> quote_free v = true ->
  match_key key (assignment key ws1 ws2 v rest) = Some v.
Proof.
  intros H1 H2 Hv Hq. apply match_key_here. unfold match_here, assignment.
  rewrite strip_prefix_append.
  rewrite (skip_spaces_append ws1 "="%char _ H1 eq_refl).
  rewrite Ascii.eqb_refl.
  rewrite (skip_spaces_append ws2 dquote _ H2 eq_refl).
  rewrite Ascii.eqb_refl.
  rewrite (span_unquoted_append v rest Hq).
  destruct v; [contradiction|reflexivity].
Qed.

Lemma match_key_assignment_witness :
  match_key "TRANSFER_SERVER_SEP0024"
            (assignment "TRANSFER_SERVER_SEP0024" " " "  " "https://anchor/sep24" Demo.nl)
  = Some "https://anchor/sep24".
Proof.
  apply match_key_assignment; try reflexivity. discriminate.
Defined.

(** X3. The lookup is not anchored to the start of a line: when a text
    has a match, so has every text that ends with it, whatever is put in
    front (a comment sign, a longer key name). *)
Theorem match_key_unanchored (key s v pre : string) :
  match_key key s = Some v ->
  exists v', match_key key (pre ++ s) = Some v'.
Proof.
  intros H. induction pre as [|c pre IH]; cbn [append].
  - now exists v.
  - cbn [match_key]. destruct (match_here key (String c (pre ++ s))) as [g|].
    + now exists g.
    + exact IH.
Qed.

Lemma match_key_unanchored_witness :
  exists v', match_key "WEB_AUTH_ENDPOINT" ("# OLD_" ++ Demo.auth_line) = Some v'.
Proof.
  exact (match_key_unanchored "WEB_AUTH_ENDPOINT" Demo.auth_line "https://anchor/auth"
           "# OLD_" eq_refl).
Defined.

(** ** The choice of network *)

(** X4. A passphrase string is replaced by the test-network passphrase
    exactly when Test occurs somewhere in it, in that spelling. *)
Theorem testnet_iff_contains_Test (s : string) :
  determine_network (Str s) = inr (Str Networks.TESTNET) <->
  exists pre post, s = pre ++ "Test" ++ post.
Proof.
  rewrite determine_network_Str, <- str_includes_spec. split.
  - destruct (str_includes "Test" s) eqn:T; [reflexivity|].
    destruct (str_includes "Public" s); intros H; [discriminate H|].
    injection H as ->. discriminate T.
  - now intros ->.
Qed.

(** X5. The choice of network is idempotent: applied to a network it has
    picked, for any passphrase value, it picks that same network again. *)
Theorem determine_network_idempotent (passphrase network : value) :
  determine_network passphrase = inr network ->
  determine_network network = inr network.
Proof.
  unfold determine_network.
  destruct (includes passphrase "Test") as [e|[|]] eqn:T; try discriminate.
  - intros H. injection H as <-. reflexivity.
  - destruct (includes passphrase "Public") as [e|[|]] eqn:P; try discriminate.
    + intros H. injection H as <-. reflexivity.
    + intros H. injection H as <-. now rewrite T, P.
Qed.

Lemma determine_network_idempotent_witness :
  determine_network (Str Networks.TESTNET) = inr (Str Networks.TESTNET).
Proof.
  exact (determine_network_idempotent (Str "Test SDF Future Network ; October 2022")
           (Str Networks.TESTNET) eq_refl).
Defined.

(** ** The SEP-10 routes *)

Lemma sep10_get_challenge_log (W : World) (cfg : Config) (req : Request) :
  let log := snd (sep10_get_challenge W cfg req []) in
  log = [] \/ log = [directory_fetch cfg] \/
  exists endpoint account domain,
    advertised W cfg "WEB_AUTH_ENDPOINT" endpoint /\
    log = [directory_fetch cfg; challenge_fetch endpoint account domain].
Proof.
  unfold sep10_get_challenge. cbv zeta. rewrite try_catch_log.
  unfold_monad. cbn [app]. fold (directory_fetch cfg).
  destruct (negb _); [now left|].
  destruct (to_string (assoc "account" (body req))) as [e|account_text]; [now left|].
  destruct (remote W [] (directory_fetch cfg)) as [data| |] eqn:Hdir;
    try (right; left; reflexivity).
  destruct data as [| | | |toml| |]; cbn [str_match]; try (right; left; reflexivity).
  destruct (match_key _ toml) as [endpoint|] eqn:Hm; [|right; left; reflexivity].
  destruct (sdk_error (encodeURIComponent W account_text)) as [e|account];
    [right; left; reflexivity|].
  destruct (sdk_error (encodeURIComponent W (CLIENT_DOMAIN cfg))) as [e|domain];
    [right; left; reflexivity|].
  right. right. exists endpoint, account, domain. split; [now exists toml|].
  cbn [app]. fold (challenge_fetch endpoint account domain). steps; reflexivity.
Qed.

(** The challenge route when every step succeeds. *)
Lemma sep10_get_challenge_run (W : World) (cfg : Config) (req : Request)
        (toml endpoint text account domain : string) (fields : list (string * value)) :
  missing "account" req = false ->
  to_string (assoc "account" (body req)) = inr text ->
  remote W [] (directory_fetch cfg) = Ok (Str toml) ->
  match_key "WEB_AUTH_ENDPOINT" toml = Some endpoint ->
  encodeURIComponent W text = inr account ->
  encodeURIComponent W (CLIENT_DOMAIN cfg) = inr domain ->
  remote W [directory_fetch cfg] (challenge_fetch endpoint account domain) = Ok (Obj fields) ->
  printable (assoc "network_passphrase" fields) = true ->
  serve W cfg post_sep10_get_challenge req =
  (inr (respond 200 [("transaction", assoc "transaction" fields);
                     ("network_passphrase", assoc "network_passphrase" fields);
                     ("webAuthEndpoint", Str endpoint)]),
   [directory_fetch cfg; challenge_fetch endpoint account domain]).
Proof.
  unfold missing. intros Hacc Htext Hdir Hm Ha Hd Hget Hnp.
  destruct (printable_inv _ Hnp) as (np & Enp).
  unfold serve, dispatch, sep10_get_challenge. unfold_monad. cbn [app].
  fold (directory_fetch cfg). rewrite Hacc, Htext, Hdir. cbn [str_match].
  rewrite Hm, Ha, Hd. cbn [sdk_error app]. fold (challenge_fetch endpoint account domain).
  rewrite Hget. cbn [prop]. now rewrite Enp.
Qed.

(** X6. When the account can be printed, the directory advertises the
    auth endpoint and the anchor answers the challenge request with an
    object whose network passphrase can be printed, the caller gets status
    200 with the anchor's transaction and network passphrase as they came
    and the endpoint found; the challenge request is a GET to that endpoint
    with the encoded text of the account and the encoded client domain in
    the query. *)
Theorem get_challenge_passthrough (W : World) (cfg : Config) (req : Request)
        (toml endpoint text account domain : string) (fields : list (string * value)) :
  missing "account" req = false ->
  to_string (assoc "account" (body req)) = inr text ->
  remote W [] (directory_fetch cfg) = Ok (Str toml) ->
  match_key "WEB_AUTH_ENDPOINT" toml = Some endpoint ->
  encodeURIComponent W text = inr account ->
  encodeURIComponent W (CLIENT_DOMAIN cfg) = inr domain ->
  remote W [directory_fetch cfg] (challenge_fetch endpoint account domain) = Ok (Obj fields) ->
  printable (assoc "network_passphrase" fields) = true ->
  serve W cfg post_sep10_get_challenge req =
  (inr (respond 200 [("transaction", assoc "transaction" fields);
                     ("network_passphrase", assoc "network_passphrase" fields);
                     ("webAuthEndpoint", Str endpoint)]),
   [directory_fetch cfg; challenge_fetch endpoint account domain]).
Proof.
  unfold missing, printable. intros Hacc Htext Hdir Hm Ha Hd Hget Hnp.
  unfold serve, dispatch, sep10_get_challenge. unfold_monad. cbn [app].
  fold (directory_fetch cfg). rewrite Hacc, Htext, Hdir. cbn [str_match].
  rewrite Hm, Ha, Hd. cbn [sdk_error app]. fold (challenge_fetch endpoint account domain).
  rewrite Hget. cbn [prop].
  destruct (to_string (assoc "network_passphrase" fields)); [discriminate Hnp|reflexivity].
Qed.

Lemma get_challenge_passthrough_witness :
  let W := Demo.world Demo.auth_line Demo.token_reply 0 in
  let req := Demo.start_request None [("account", Str "GSUBJECT")] in
  serve W Demo.cfg post_sep10_get_challenge req =
  (inr (respond 200 [("transaction", Str "envelope");
                     ("network_passphrase", Str Networks.TESTNET);
                     ("webAuthEndpoint", Str "https://anchor/auth")]),
   [directory_fetch Demo.cfg;
    AxiosGet ("https://anchor/auth?account=GSUBJECT" ++
              "&client_domain=7d857520cafe.ngrok-free.app%20") [] []]).
Proof.
  intros W req.
  exact (get_challenge_passthrough W Demo.cfg req Demo.auth_line "https://anchor/auth"
           "GSUBJECT" "GSUBJECT" "7d857520cafe.ngrok-free.app%20"
           [("transaction", Str "envelope"); ("network_passphrase", Str Networks.TESTNET)]
           eq_refl eq_refl eq_refl eq_refl eq_refl eq_refl eq_refl eq_refl).
Defined.

(** X7. When the directory document has no match for the auth-endpoint
    key, both SEP-10 routes answer 400 saying so and call nothing but the
    directory: no challenge is requested for an account that is present and
    can be printed, and an envelope that has already been co-signed is not
    posted anywhere. *)
Theorem auth_endpoint_not_advertised (W : World) (cfg : Config)
        (challenge submit : Request) (toml key : string) (txn : Transaction) :
  remote W [] (directory_fetch cfg) = Ok (Str toml) ->
  match_key "WEB_AUTH_ENDPOINT" toml = None ->
  missing "account" challenge = false ->
  printable (assoc "account" (body challenge)) = true ->
  missing "signedTransaction" submit = false ->
  missing "networkPassphrase" submit = false ->
  signing_key cfg = Some key ->
  coSign W key (assoc "signedTransaction" (body submit))
         (assoc "networkPassphrase" (body submit)) = inr txn ->
  serve W cfg post_sep10_get_challenge challenge
  = (inr auth_not_advertised, [directory_fetch cfg]) /\
  serve W cfg post_sep10_submit submit
  = (inr auth_not_advertised, [directory_fetch cfg]).
Proof.
  unfold missing, signing_key. intros Hdir Hm Hacc Hprint Hs Hn Hkey Hsign. split.
  - destruct (printable_inv _ Hprint) as (text & Etext).
    unfold serve, dispatch, sep10_get_challenge. unfold_monad. cbn [app].
    fold (directory_fetch cfg). rewrite Hacc, Etext, Hdir. cbn [str_match]. now rewrite Hm.
  - unfold serve, dispatch, sep10_submit. unfold_monad. cbn [app].
    fold (directory_fetch cfg). rewrite Hs, Hn. cbn [negb orb].
    destruct (CLIENT_SIGNING_KEY cfg) as [[|a k]|]; try discriminate Hkey.
    injection Hkey as <-. rewrite Hsign, Hdir. cbn [str_match]. now rewrite Hm.
Qed.

Lemma auth_endpoint_not_advertised_witness :
  let W := Demo.world Demo.transfer_line Demo.token_reply 0 in
  serve W Demo.cfg post_sep10_get_challenge
        (Demo.start_request None [("account", Str "GSUBJECT")])
  = (inr auth_not_advertised, [directory_fetch Demo.cfg]) /\
  serve W Demo.cfg post_sep10_submit (Demo.submit_request "envelope+GSUBJECT" Networks.TESTNET)
  = (inr auth_not_advertised, [directory_fetch Demo.cfg]).
Proof.
  intros W.
  exact (auth_endpoint_not_advertised W Demo.cfg
           (Demo.start_request None [("account", Str "GSUBJECT")])
           (Demo.submit_request "envelope+GSUBJECT" Networks.TESTNET)
           Demo.transfer_line "SORIGIN"
           {| tx := Demo.challenge;
              signatures := [Demo.by_subject; Demo.by_origin];
              networkPassphrase := Networks.TESTNET |}
           eq_refl eq_refl eq_refl eq_refl eq_refl eq_refl eq_refl eq_refl).
Defined.

(** X8. A submit request in which the signed transaction or the network
    passphrase is missing is answered 400 at once: nothing is parsed or
    signed, and no remote call is made, whether or not a key is configured. *)
Theorem submit_missing_field_is_local (W : World) (cfg : Config) (req : Request) :
  missing "signedTransaction" req || missing "networkPassphrase" req = true ->
  serve W cfg post_sep10_submit req = (inr missing_fields_submit, []).
Proof.
  unfold missing. intros H.
  unfold serve, dispatch, sep10_submit, try_catch. now rewrite H.
Qed.

Lemma submit_missing_field_is_local_witness :
  serve (Demo.world Demo.auth_line Demo.token_reply 0) Demo.cfg post_sep10_submit
        (Demo.start_request None [("signedTransaction", Str "envelope+GSUBJECT")])
  = (inr missing_fields_submit, []).
Proof.
  apply submit_missing_field_is_local. reflexivity.
Defined.

(** X9. Without a signing key (the variable unset or empty), a submit
    request that has both fields is answered 500 saying the key is not
    configured; the answer has no details, and no remote call is made. *)
Theorem submit_without_key (W : World) (cfg : Config) (req : Request) :
  missing "signedTransaction" req = false ->
  missing "networkPassphrase" req = false ->
  signing_key cfg = None ->
  serve W cfg post_sep10_submit req = (inr key_not_configured, []).
Proof.
  unfold missing, signing_key. intros Hs Hn Hkey.
  unfold serve, dispatch, sep10_submit, try_catch. rewrite Hs, Hn. cbn [negb orb].
  destruct (CLIENT_SIGNING_KEY cfg) as [[|a k]|]; try discriminate Hkey; reflexivity.
Qed.

Lemma submit_without_key_witness :
  serve (Demo.world Demo.auth_line Demo.token_reply 0) (config_sep24 (Some EmptyString))
        post_sep10_submit (Demo.submit_request "envelope+GSUBJECT" Networks.TESTNET)
  = (inr key_not_configured, []).
Proof.
  apply submit_without_key; reflexivity.
Defined.

Lemma determine_network_error (passphrase : value) (e : exn) :
  determine_network passphrase = inl e -> exists m, e = Error m.
Proof.
  unfold determine_network, includes.
  destruct passphrase; intros H;
    try (injection H as <-; eexists; reflexivity).
  - destruct (str_includes "Test" s); [discriminate|].
    destruct (str_includes "Public" s); discriminate.
  - destruct (existsb (is_str "Test") items); [discriminate|].
    destruct (existsb (is_str "Public") items); discriminate.
Qed.

Lemma coSign_error (W : World) (key : string) (signedTransaction passphrase : value)
      (e : exn) :
  coSign W key signedTransaction passphrase = inl e -> exists m, e = Error m.
Proof.
  unfold coSign.
  destruct (determine_network passphrase) as [e'|network] eqn:Hn.
  - intros H. injection H as <-. exact (determine_network_error _ _ Hn).
  - unfold new_Transaction.
    destruct signedTransaction; try (intros H; injection H as <-; eexists; reflexivity).
    destruct (fromXDR (sdk W) s) as [m|env];
      [intros H; injection H as <-; eexists; reflexivity|].
    destruct network; try (intros H; injection H as <-; eexists; reflexivity).
    destruct (fromSecret (sdk W) key) as [m|k]; [|discriminate].
    intros H. injection H as <-. eexists; reflexivity.
Qed.

(** X10. When co-signing fails (the passphrase has no [includes], the
    envelope does not decode, the key does not decode), the caller gets
    status 500 with the submit error and, as details, the message of the
    error thrown; this is settled before the directory is fetched, so no
    remote call is made. *)
Theorem submit_cosign_failure_is_local (W : World) (cfg : Config) (req : Request)
        (key : string) (e : exn) :
  missing "signedTransaction" req = false ->
  missing "networkPassphrase" req = false ->
  signing_key cfg = Some key ->
  coSign W key (assoc "signedTransaction" (body req))
         (assoc "networkPassphrase" (body req)) = inl e ->
  exists m,
    e = Error m /\
    serve W cfg post_sep10_submit req =
    (inr {| status := 500;
            json := Obj [("error", Str "Failed to submit transaction");
                         ("details", Str m)] |}, []).
Proof.
  unfold missing, signing_key. intros Hs Hn Hkey Hsign.
  destruct (coSign_error _ _ _ _ _ Hsign) as (m & ->). exists m. split; [reflexivity|].
  unfold serve, dispatch, sep10_submit. unfold_monad. rewrite Hs, Hn. cbn [negb orb].
  destruct (CLIENT_SIGNING_KEY cfg) as [[|a k]|]; try discriminate Hkey.
  injection Hkey as <-. now rewrite Hsign.
Qed.

Lemma submit_cosign_failure_is_local_witness :
  exists m,
    Error "XDR Read Error" = Error m /\
    serve (Demo.world Demo.auth_line Demo.token_reply 0) Demo.cfg post_sep10_submit
          (Demo.submit_request "not an envelope" Networks.TESTNET) =
    (inr {| status := 500;
            json := Obj [("error", Str "Failed to submit transaction");
                         ("details", Str m)] |}, []).
Proof.
  exact (submit_cosign_failure_is_local (Demo.world Demo.auth_line Demo.token_reply 0)
           Demo.cfg (Demo.submit_request "not an envelope" Networks.TESTNET)
           "SORIGIN" (Error "XDR Read Error") eq_refl eq_refl eq_refl eq_refl).
Defined.

(** X11. When the anchor accepts the submission with an object, the caller
    gets status 200 with the anchor's token as it came, whatever JSON value
    it is; when the anchor's answer has no token, the caller still gets
    status 200, with an empty object. *)
Theorem submit_token_passthrough (W : World) (cfg : Config) (req : Request) (key : string)
        (txn : Transaction) (toml endpoint : string) (fields : list (string * value)) :
  missing "signedTransaction" req = false ->
  missing "networkPassphrase" req = false ->
  signing_key cfg = Some key ->
  coSign W key (assoc "signedTransaction" (body req))
         (assoc "networkPassphrase" (body req)) = inr txn ->
  remote W [] (directory_fetch cfg) = Ok (Str toml) ->
  match_key "WEB_AUTH_ENDPOINT" toml = Some endpoint ->
  remote W [directory_fetch cfg] (submission W endpoint txn) = Ok (Obj fields) ->
  serve W cfg post_sep10_submit req =
  (inr (respond 200 [("token", assoc "token" fields)]),
   [directory_fetch cfg; submission W endpoint txn]) /\
  (assoc "token" fields = Undefined ->
   fst (serve W cfg post_sep10_submit req) = inr {| status := 200; json := Obj [] |}).
Proof.
  unfold signing_key. intros Hs Hn Hkey Hsign Hdir Hm Hpost.
  assert (Hcfg : CLIENT_SIGNING_KEY cfg = Some key /\ key <> EmptyString).
  { destruct (CLIENT_SIGNING_KEY cfg) as [[|a k]|]; try discriminate Hkey.
    injection Hkey as <-. split; [reflexivity|discriminate]. }
  destruct Hcfg as [Hcfg Hne].
  rewrite (sep10_submit_run W cfg req key txn toml endpoint Hs Hn Hcfg Hne Hsign Hdir Hm).
  rewrite Hpost. cbn [submit_outcome prop]. split; [reflexivity|].
  intros ->. reflexivity.
Qed.

Lemma submit_token_passthrough_witness :
  let W := Demo.world Demo.auth_line (Ok (Obj [("expires", Num 300)])) 0 in
  fst (serve W Demo.cfg post_sep10_submit
             (Demo.submit_request "envelope+GSUBJECT" Networks.TESTNET))
  = inr {| status := 200; json := Obj [] |}.
Proof.
  intros W.
  exact (proj2 (submit_token_passthrough W Demo.cfg
                  (Demo.submit_request "envelope+GSUBJECT" Networks.TESTNET) "SORIGIN"
                  {| tx := Demo.challenge;
                     signatures := [Demo.by_subject; Demo.by_origin];
                     networkPassphrase := Networks.TESTNET |}
                  Demo.auth_line "https://anchor/auth" [("expires", Num 300)]
                  eq_refl eq_refl eq_refl eq_refl eq_refl eq_refl eq_refl) eq_refl).
Defined.

(** ** The status route *)

Lemma serve_gate_cases (W : World) (cfg : Config) (r : route) (req : Request) :
  authenticated r = true ->
  serve W cfg r req = (inr unauthorized, []) \/
  exists jwtToken,
    authorization req = Some ("Bearer " ++ jwtToken) /\
    serve W cfg r req = handler W cfg r jwtToken req [].
Proof.
  intros Hr.
  assert (H : forall next,
             verifyToken req next [] = (inr unauthorized, []) \/
             exists jwtToken,
               authorization req = Some ("Bearer " ++ jwtToken) /\
               verifyToken req next [] = next jwtToken []).
  { intros next. unfold verifyToken.
    destruct (authorization req) as [authHeader|]; [|now left].
    destruct (startsWith authHeader "Bearer ") eqn:Hp.
    - right. exists (substring_from 7 authHeader). split.
      + f_equal. exact (prefix_split "Bearer " authHeader Hp).
      + destruct authHeader; [discriminate Hp|reflexivity].
    - left. now rewrite orb_true_r. }
  destruct r; try discriminate Hr; apply H.
Qed.

Lemma serve_transaction_pass (W : World) (cfg : Config) (req : Request)
      (jwtToken : string) :
  authorization req = Some ("Bearer " ++ jwtToken) ->
  serve W cfg post_sep24_transaction req = sep24_transaction W cfg jwtToken req [].
Proof.
  intros Hauth. unfold serve, dispatch, verifyToken. rewrite Hauth.
  unfold startsWith. rewrite prefix_append.
  change 7 with (String.length "Bearer "). now rewrite substring_from_append.
Qed.

Lemma prop_defined (v : value) (k : string) :
  v <> Undefined -> v <> Null -> exists x, prop v k = inr x.
Proof.
  intros Hu Hn. destruct v; try contradiction; eexists; reflexivity.
Qed.

Lemma prop_undefined (v : value) (k : string) :
  v = Undefined \/ v = Null -> exists m, prop v k = inl (Error m).
Proof. intros [->| ->]; eexists; reflexivity. Qed.

(** The handler once the anchor has answered the status query. *)
Lemma sep24_transaction_run (W : World) (cfg : Config) (req : Request)
      (jwtToken toml transferServer : string) (data : value) :
  missing "id" req = false ->
  printable (assoc "id" (body req)) = true ->
  remote W [] (directory_fetch cfg) = Ok (Str toml) ->
  match_key "TRANSFER_SERVER_SEP0024" toml = Some transferServer ->
  remote W [directory_fetch cfg] (status_query jwtToken req transferServer) = Ok data ->
  sep24_transaction W cfg jwtToken req [] =
  (inr (status_outcome data),
   [directory_fetch cfg; status_query jwtToken req transferServer]).
Proof.
  unfold missing. intros Hid Hprint Hdir Hm Hq.
  destruct (printable_inv _ Hprint) as (text & Etext).
  unfold sep24_transaction. unfold_monad. cbn [app]. fold (directory_fetch cfg).
  rewrite Hid, Etext, Hdir. cbn [str_match]. rewrite Hm. cbn [app].
  fold (status_query jwtToken req transferServer). rewrite Hq.
  unfold status_outcome, failed.
  steps; try reflexivity.
  all: step_truthy; steps; reflexivity.
Qed.

(** The answer for a transaction that can be logged. *)
Lemma status_outcome_loggable (data transaction : value) :
  prop data "transaction" = inr transaction ->
  loggable transaction = true ->
  status_outcome data = {| status := 200; json := transaction |}.
Proof.
  unfold status_outcome, loggable, printable. intros -> H.
  destruct (prop transaction "status") as [e|s]; [discriminate H|].
  destruct (prop transaction "message") as [e|m]; [discriminate H|].
  destruct (to_string s); [discriminate H|].
  destruct (truthy m); [|reflexivity].
  destruct (to_string m); [discriminate H|reflexivity].
Qed.

(** X12. A status request without an id is answered 400 at once by the
    handler, and the route makes no remote call, whatever the header. *)
Theorem transaction_missing_id_is_local (W : World) (cfg : Config) (req : Request) :
  missing "id" req = true ->
  (forall jwtToken,
      sep24_transaction W cfg jwtToken req [] = (inr missing_field_id, [])) /\
  snd (serve W cfg post_sep24_transaction req) = [].
Proof.
  unfold missing. intros Hid.
  assert (Hh : forall jwtToken,
             sep24_transaction W cfg jwtToken req [] = (inr missing_field_id, [])).
  { intros jwtToken. unfold sep24_transaction, try_catch. now rewrite Hid. }
  split; [exact Hh|].
  destruct (serve_gate_cases W cfg post_sep24_transaction req eq_refl)
    as [E|(jwt & _ & E)]; rewrite E; [reflexivity|].
  cbn [handler]. now rewrite Hh.
Qed.

Lemma transaction_missing_id_is_local_witness :
  let W := Demo.world Demo.transfer_line Demo.interactive_reply 0 in
  let req := Demo.start_request (Some "Bearer jwt") [("id", Str EmptyString)] in
  (forall jwtToken,
      sep24_transaction W Demo.cfg jwtToken req [] = (inr missing_field_id, [])) /\
  snd (serve W Demo.cfg post_sep24_transaction req) = [].
Proof.
  intros W req. apply (transaction_missing_id_is_local W Demo.cfg req). reflexivity.
Defined.

(** X13. When the id can be printed and the anchor answers the status
    query with a transaction that can be logged (its status, and its message
    when there is one, can be printed), the caller gets status 200 and that
    transaction as it came, with every field the anchor put in it; the query
    is a GET to the transaction endpoint of the advertised transfer server
    with the id as its parameter and the bearer token. *)
Theorem transaction_passthrough (W : World) (cfg : Config) (req : Request)
        (jwtToken toml transferServer : string) (data transaction : value) :
  authorization req = Some ("Bearer " ++ jwtToken) ->
  missing "id" req = false ->
  printable (assoc "id" (body req)) = true ->
  remote W [] (directory_fetch cfg) = Ok (Str toml) ->
  match_key "TRANSFER_SERVER_SEP0024" toml = Some transferServer ->
  remote W [directory_fetch cfg] (status_query jwtToken req transferServer) = Ok data ->
  prop data "transaction" = inr transaction ->
  loggable transaction = true ->
  serve W cfg post_sep24_transaction req =
  (inr {| status := 200; json := transaction |},
   [directory_fetch cfg; status_query jwtToken req transferServer]).
Proof.
  intros Hauth Hid Hprint Hdir Hm Hq Ht Hlog.
  rewrite (serve_transaction_pass W cfg req jwtToken Hauth).
  rewrite (sep24_transaction_run W cfg req jwtToken toml transferServer data
             Hid Hprint Hdir Hm Hq).
  now rewrite (status_outcome_loggable data transaction Ht Hlog).
Qed.

Lemma transaction_passthrough_witness :
  let W := Demo.world Demo.transfer_line Demo.interactive_reply 0 in
  let req := Demo.start_request (Some "Bearer jwt") [("id", Str "tx1")] in
  serve W Demo.cfg post_sep24_transaction req =
  (inr {| status := 200; json := Obj [("id", Str "tx1"); ("status", Str "incomplete")] |},
   [directory_fetch Demo.cfg; status_query "jwt" req "https://anchor/sep24"]).
Proof.
  intros W req.
  apply (transaction_passthrough W Demo.cfg req "jwt" Demo.transfer_line
           "https://anchor/sep24"
           (Obj [("transaction", Obj [("id", Str "tx1"); ("status", Str "incomplete")])]));
    reflexivity.
Defined.

(** X14. When the id can be printed and the anchor answers the status
    query with success but without a transaction (or with null), the caller
    gets status 500 with the status error and the message of the type error
    as details. *)
Theorem transaction_absent_in_answer (W : World) (cfg : Config) (req : Request)
        (jwtToken toml transferServer : string) (data transaction : value) :
  authorization req = Some ("Bearer " ++ jwtToken) ->
  missing "id" req = false ->
  printable (assoc "id" (body req)) = true ->
  remote W [] (directory_fetch cfg) = Ok (Str toml) ->
  match_key "TRANSFER_SERVER_SEP0024" toml = Some transferServer ->
  remote W [directory_fetch cfg] (status_query jwtToken req transferServer) = Ok data ->
  prop data "transaction" = inr transaction ->
  transaction = Undefined \/ transaction = Null ->
  exists m,
    serve W cfg post_sep24_transaction req =
    (inr {| status := 500;
            json := Obj [("error", Str "Failed to get transaction status");
                         ("details", Str m)] |},
     [directory_fetch cfg; status_query jwtToken req transferServer]).
Proof.
  intros Hauth Hid Hprint Hdir Hm Hq Ht Hno.
  rewrite (serve_transaction_pass W cfg req jwtToken Hauth).
  rewrite (sep24_transaction_run W cfg req jwtToken toml transferServer data
             Hid Hprint Hdir Hm Hq).
  unfold status_outcome. rewrite Ht.
  destruct (prop_undefined transaction "status" Hno) as (m & ->).
  exists m. reflexivity.
Qed.

Lemma transaction_absent_in_answer_witness :
  let W := scripted [directory_entry Demo.transfer_line;
                     ("https://anchor/sep24/transaction", Ok (Obj []))] in
  let req := Demo.start_request (Some "Bearer jwt") [("id", Str "tx1")] in
  exists m,
    serve W Demo.cfg post_sep24_transaction req =
    (inr {| status := 500;
            json := Obj [("error", Str "Failed to get transaction status");
                         ("details", Str m)] |},
     [directory_fetch Demo.cfg; status_query "jwt" req "https://anchor/sep24"]).
Proof.
  intros W req.
  apply (transaction_absent_in_answer W Demo.cfg req "jwt" Demo.transfer_line
           "https://anchor/sep24" (Obj []) Undefined);
    try reflexivity.
  now left.
Defined.

(** ** More on the initiation route *)

(** X15. The info fetch comes before the initiation and its failure ends
    the request: when the transfer server does not answer the info fetch
    with success, a request that passes the local checks is answered with
    status 500 and no initiation is posted, so the token is not sent. *)
Theorem info_failure_stops_initiation (W : World) (cfg : Config) (req : Request)
        (jwtToken toml transferServer : string) :
  authorization req = Some ("Bearer " ++ jwtToken) ->
  well_formed_start req = true ->
  remote W [] (directory_fetch cfg) = Ok (Str toml) ->
  match_key "TRANSFER_SERVER_SEP0024" toml = Some transferServer ->
  (forall info, remote W [directory_fetch cfg] (info_fetch transferServer) <> Ok info) ->
  exists resp,
    serve W cfg post_sep24_start req =
    (inr resp, [directory_fetch cfg; info_fetch transferServer]) /\
    status resp = 500%Z.
Proof.
  intros Hauth Hwf Hdir Hm Hinfo.
  destruct (well_formed_start_inv req Hwf)
    as (mode & asset & amount & account & Hmd & Hmode & Hasset & Hacc & Ea & Em & Ec).
  rewrite (serve_start_pass W cfg req jwtToken Hauth).
  unfold sep24_start. unfold_monad. cbn [app]. fold (directory_fetch cfg).
  rewrite Hmd, Hmode, Hasset, Hacc, Ea, Em, Ec. cbn [negb orb toUpperCase_defined to_string].
  rewrite Hdir. cbn [str_match]. rewrite Hm. cbn [app].
  fold (info_fetch transferServer).
  destruct (remote W [directory_fetch cfg] (info_fetch transferServer)) as [info| |] eqn:E.
  - now elim (Hinfo info).
  - eexists; split; reflexivity.
  - eexists; split; reflexivity.
Qed.

Lemma info_failure_stops_initiation_witness :
  let W := scripted [directory_entry Demo.transfer_line;
                     ("https://anchor/sep24/info", Rejected Null "Request failed with status code 503")] in
  let req := Demo.start_request (Some "Bearer jwt") (start_fields (Str "deposit") (Str "100")) in
  exists resp,
    serve W Demo.cfg post_sep24_start req =
    (inr resp, [directory_fetch Demo.cfg; info_fetch "https://anchor/sep24"]) /\
    status resp = 500%Z.
Proof.
  intros W req.
  apply (info_failure_stops_initiation W Demo.cfg req "jwt" Demo.transfer_line
           "https://anchor/sep24"); try reflexivity.
  intros info. discriminate.
Defined.

(** X16. A mode that is truthy but not a string (a number, true, an
    object, an array) is not routed anywhere: the first log line throws and
    no remote call is made.  The catch block prints the mode: when the mode
    can be printed, the caller gets status 500 with that text in the error
    and the type error as details; when it cannot (an object with a property
    named toString, an array that holds one), the catch block throws in its
    turn, the exception leaves the handler and no answer is sent. *)
Theorem non_string_mode_fails_locally (W : World) (cfg : Config) (req : Request)
        (jwtToken : string) :
  authorization req = Some ("Bearer " ++ jwtToken) ->
  missing "mode" req = false ->
  missing "assetCode" req = false ->
  missing "account" req = false ->
  is_string (assoc "mode" (body req)) = false ->
  snd (serve W cfg post_sep24_start req) = [] /\
  (forall text,
      to_string (assoc "mode" (body req)) = inr text ->
      fst (serve W cfg post_sep24_start req) =
      inr {| status := 500;
             json := Obj [("error", Str ("Failed to start " ++ text));
                          ("details", Str "mode.toUpperCase is not a function")] |}) /\
  (forall thrown,
      to_string (assoc "mode" (body req)) = inl thrown ->
      fst (serve W cfg post_sep24_start req) = inl thrown).
Proof.
  unfold missing. intros Hauth Hmode Hasset Hacc Hstr.
  rewrite negb_false_iff in Hmode, Hasset, Hacc.
  rewrite (serve_start_pass W cfg req jwtToken Hauth).
  unfold sep24_start. unfold_monad. rewrite Hmode, Hasset, Hacc. cbn [negb orb].
  destruct (assoc "mode" (body req)) as [| | | |mode| |]; try discriminate Hstr;
    cbn [toUpperCase_defined].
  all: split; [now destruct (to_string _) | split; intros ? ->; reflexivity].
Qed.

Lemma non_string_mode_fails_locally_witness :
  let W := Demo.world Demo.transfer_line Demo.interactive_reply 0 in
  let start mode := Demo.start_request (Some "Bearer jwt") (start_fields mode (Str "100")) in
  fst (serve W Demo.cfg post_sep24_start (start (Num 5))) =
  inr {| status := 500;
         json := Obj [("error", Str "Failed to start 5");
                      ("details", Str "mode.toUpperCase is not a function")] |} /\
  fst (serve W Demo.cfg post_sep24_start (start (Num (10 ^ 21)))) =
  inr {| status := 500;
         json := Obj [("error", Str "Failed to start 1e+21");
                      ("details", Str "mode.toUpperCase is not a function")] |} /\
  fst (serve W Demo.cfg post_sep24_start (start (Obj [("toString", Num 1)]))) =
  inl (Error "Cannot convert object to primitive value").
Proof.
  intros W start. split; [|split].
  - exact (proj1 (proj2 (non_string_mode_fails_locally W Demo.cfg (start (Num 5)) "jwt"
                           eq_refl eq_refl eq_refl eq_refl eq_refl))
                 "5" eq_refl).
  - exact (proj1 (proj2 (non_string_mode_fails_locally W Demo.cfg (start (Num (10 ^ 21))) "jwt"
                           eq_refl eq_refl eq_refl eq_refl eq_refl))
                 "1e+21" eq_refl).
  - exact (proj2 (proj2 (non_string_mode_fails_locally W Demo.cfg
                           (start (Obj [("toString", Num 1)])) "jwt"
                           eq_refl eq_refl eq_refl eq_refl eq_refl))
                 (Error "Cannot convert object to primitive value") eq_refl).
Defined.

(** ** What holds of every request *)

(** X17. A request on any route is answered, and with one of four
    statuses: 200, 400, 401 or 500, of which 401 is only ever given by the
    two routes behind [verifyToken]; or else it gets no answer at all.  The
    latter happens on the initiation route only, and only to a request that
    passes the gate with its three required fields truthy and a mode that
    cannot be printed: the exception leaves the handler before any remote
    call. *)
Theorem answered_or_mode_unprintable (W : World) (cfg : Config) (r : route)
        (req : Request) :
  (exists resp,
      fst (serve W cfg r req) = inr resp /\
      In (status resp) [200; 400; 401; 500]%Z /\
      (status resp = 401%Z -> authenticated r = true)) \/
  (r = post_sep24_start /\
   (exists jwtToken, authorization req = Some ("Bearer " ++ jwtToken)) /\
   missing "mode" req = false /\ missing "assetCode" req = false /\
   missing "account" req = false /\
   printable (assoc "mode" (body req)) = false /\
   exists thrown, serve W cfg r req = (inl thrown, [])).
Proof.
  destruct r; cbn [authenticated].
  - left. unfold serve, dispatch, sep10_get_challenge. unfold_monad. cbn [app]. run.
    all: eexists; split; [reflexivity|]; cbn; split; [tauto|discriminate].
  - left. unfold serve, dispatch, sep10_submit. unfold_monad. cbn [app]. run.
    all: eexists; split; [reflexivity|]; cbn; split; [tauto|discriminate].
  - destruct (serve_start_cases W cfg req) as [E|(jwt & Hauth & E)]; rewrite E.
    + left. eexists; split; [reflexivity|]. cbn. split; [tauto|reflexivity].
    + unfold missing, printable, sep24_start. unfold_monad. cbn [app].
      destruct (truthy (assoc "mode" (body req))) eqn:Hmode; cbn [negb orb];
        [|left; eexists; split; [reflexivity|]; cbn; split; [tauto|reflexivity]].
      destruct (truthy (assoc "assetCode" (body req))) eqn:Hasset; cbn [negb orb];
        [|left; eexists; split; [reflexivity|]; cbn; split; [tauto|reflexivity]].
      destruct (truthy (assoc "account" (body req))) eqn:Hacc; cbn [negb orb];
        [|left; eexists; split; [reflexivity|]; cbn; split; [tauto|reflexivity]].
      destruct (assoc "mode" (body req)) as [| | | |mode| |]; cbn [toUpperCase_defined].
      5: { left. cbn [to_string]. run.
           all: eexists; split; [reflexivity|]; cbn; split; [tauto|reflexivity]. }
      all: destruct (to_string _) as [thrown|text];
        [ right; repeat split; eauto
        | left; eexists; split; [reflexivity|]; cbn; split; [tauto|reflexivity] ].
  - left. unfold serve, dispatch, verifyToken, sep24_transaction. unfold_monad. cbn [app]. run.
    all: eexists; split; [reflexivity|]; cbn; split; [tauto|reflexivity].
Qed.

(** X18. On every route the first remote call, if there is one, is the
    fetch of the directory document of the home domain, and a request makes
    three remote calls at most. *)
Theorem directory_is_fetched_first (W : World) (cfg : Config) (r : route) (req : Request) :
  (length (snd (serve W cfg r req)) <= 3)%nat /\
  forall c, hd_error (snd (serve W cfg r req)) = Some c ->
            c = AxiosGet (HOME_DOMAIN cfg ++ "/.well-known/stellar.toml") [] [].
Proof.
  unfold serve, dispatch.
  destruct r.
  - unfold sep10_get_challenge. unfold_monad. cbn [app]. run.
    all: cbn [snd length hd_error]; split; [lia|intros c H; now inversion H].
  - unfold sep10_submit. unfold_monad. cbn [app]. run.
    all: cbn [snd length hd_error]; split; [lia|intros c H; now inversion H].
  - unfold verifyToken, sep24_start. unfold_monad. cbn [app]. run.
    all: cbn [snd length hd_error]; split; [lia|intros c H; now inversion H].
  - unfold verifyToken, sep24_transaction. unfold_monad. cbn [app]. run.
    all: cbn [snd length hd_error]; split; [lia|intros c H; now inversion H].
Qed.

(** X19. The bearer token goes to the transfer server only: a remote call
    that carries an Authorization header is made on a route behind
    [verifyToken], and it is the initiation or the status query at the
    advertised transfer server.  The directory fetch, the info fetch and
    every call of the SEP-10 routes carry none. *)
Theorem token_is_confined (W : World) (cfg : Config) (r : route) (req : Request)
        (c : call) (v : string) :
  In c (snd (serve W cfg r req)) ->
  In ("Authorization", v) (call_headers c) ->
  authenticated r = true /\
  exists jwtToken transferServer,
    authorization req = Some ("Bearer " ++ jwtToken) /\
    advertised W cfg "TRANSFER_SERVER_SEP0024" transferServer /\
    (c = initiation jwtToken req transferServer \/
     c = status_query jwtToken req transferServer).
Proof.
  intros Hc Hv. destruct r.
  - exfalso. unfold serve, dispatch in Hc.
    destruct (sep10_get_challenge_log W cfg req) as [E|[E|(e & a & d & _ & E)]];
      rewrite E in Hc; cbn [In] in Hc;
      intuition (subst; cbn [In call_headers directory_fetch challenge_fetch] in Hv;
                 tauto).
  - exfalso. unfold serve, dispatch in Hc.
    destruct (sep10_submit_log W cfg req) as [E|[E|(k & t & e & _ & _ & _ & E)]];
      rewrite E in Hc; cbn [In] in Hc;
      intuition (subst;
                 cbn [In call_headers directory_fetch submission json_headers] in Hv;
                 intuition congruence).
  - split; [reflexivity|].
    destruct (serve_gate_cases W cfg post_sep24_start req eq_refl)
      as [E|(jwt & Hauth & E)]; rewrite E in Hc; [contradiction|].
    cbn [handler] in Hc.
    destruct (sep24_start_log W cfg jwt req) as [L|[L|(ts & Hadv & [L|L])]];
      rewrite L in Hc; cbn [In] in Hc.
    + contradiction.
    + destruct Hc as [<-|[]]. contradiction.
    + destruct Hc as [<-|[<-|[]]]; contradiction.
    + destruct Hc as [<-|[<-|[<-|[]]]]; try contradiction.
      exists jwt, ts. auto.
  - split; [reflexivity|].
    destruct (serve_gate_cases W cfg post_sep24_transaction req eq_refl)
      as [E|(jwt & Hauth & E)]; rewrite E in Hc; [contradiction|].
    cbn [handler] in Hc.
    destruct (sep24_transaction_log W cfg jwt req) as [L|[L|(ts & Hadv & L)]];
      rewrite L in Hc; cbn [In] in Hc.
    + contradiction.
    + destruct Hc as [<-|[]]. contradiction.
    + destruct Hc as [<-|[<-|[]]]; try contradiction.
      exists jwt, ts. auto.
Qed.

Lemma token_is_confined_witness :
  let W := Demo.world Demo.transfer_line Demo.interactive_reply 0 in
  let req := Demo.start_request (Some "Bearer jwt") [("id", Str "tx1")] in
  authenticated post_sep24_transaction = true /\
  exists jwtToken transferServer,
    authorization req = Some ("Bearer " ++ jwtToken) /\
    advertised W Demo.cfg "TRANSFER_SERVER_SEP0024" transferServer /\
    (status_query "jwt" req "https://anchor/sep24" = initiation jwtToken req transferServer \/
     status_query "jwt" req "https://anchor/sep24" = status_query jwtToken req transferServer).
Proof.
  intros W req.
  apply (token_is_confined W Demo.cfg post_sep24_transaction req
           (status_query "jwt" req "https://anchor/sep24") "Bearer jwt").
  - cbn. right. left. reflexivity.
  - cbn. left. reflexivity.
Defined.

(** ** The two signatures *)

(** X20. The browser and the server sign the same transaction under the
    same network.  Let the challenge decode to an envelope, let the network
    picked for its passphrase be a string, and let the envelope the browser
    sends decode on the server to what the browser encoded.  Then what the
    server co-signs carries the signatures of the challenge, then the
    user's, then the server's, the last two over the hash of that one
    transaction under that one network. *)
Theorem handshake_signatures (W : World) (secret key xdr network : string)
        (challengeTx passphrase : value) (env : Envelope) (user : Keypair)
        (req : Request) (txn : Transaction) :
  prop challengeTx "network_passphrase" = inr passphrase ->
  determine_network passphrase = inr (Str network) ->
  prop challengeTx "transaction" = inr (Str xdr) ->
  fromXDR (sdk W) xdr = inr env ->
  fromSecret (sdk W) secret = inr user ->
  fromXDR (sdk W) (toXDR (sdk W) (user_signed W user network env))
  = inr (user_signed W user network env) ->
  handleSignAndSubmit_request W secret challengeTx = inr req ->
  coSign W key (assoc "signedTransaction" (body req))
         (assoc "networkPassphrase" (body req)) = inr txn ->
  exists server,
    fromSecret (sdk W) key = inr server /\
    networkPassphrase txn = network /\
    tx txn = env_tx env /\
    signatures txn =
      (env_signatures env ++
       [origin_signature W user network (env_tx env);
        origin_signature W server network (env_tx env)])%list.
Proof.
  intros Hp Hn Ht Hx Hu Hround Hreq Hsign.
  unfold handleSignAndSubmit_request in Hreq.
  rewrite Hp, Hn, Ht in Hreq. unfold new_Transaction in Hreq.
  rewrite Hx, Hu in Hreq. injection Hreq as <-.
  cbn [body assoc String.eqb Ascii.eqb Bool.eqb] in Hsign.
  destruct (coSign_inv _ _ _ _ _ Hsign) as (xdr' & env' & server & Hx' & Hd & Hk & Hn' & Htx & Hs).
  injection Hx' as <-.
  change (toEnvelope (sign W {| tx := env_tx env; signatures := env_signatures env;
                               networkPassphrase := network |} user))
    with (user_signed W user network env) in Hd.
  rewrite Hround in Hd. injection Hd as <-.
  rewrite Hn in Hn'. injection Hn' as Hnet.
  exists server. rewrite <- Hnet in *.
  repeat split; [exact Hk|exact Htx|].
  rewrite Hs. cbn [user_signed env_signatures env_tx]. now rewrite <- app_assoc.
Qed.

Lemma handshake_signatures_witness :
  let W := Demo.world Demo.auth_line Demo.token_reply 0 in
  exists server,
    fromSecret (sdk W) "SORIGIN" = inr server /\
    Networks.TESTNET = Networks.TESTNET /\
    Demo.challenge = Demo.challenge /\
    [Demo.by_subject; Demo.by_origin] =
      ([] ++ [origin_signature W Demo.subject Networks.TESTNET Demo.challenge;
              origin_signature W server Networks.TESTNET Demo.challenge])%list.
Proof.
  intros W.
  exact (handshake_signatures W "SUBJECT" "SORIGIN" "envelope" Networks.TESTNET
           (Obj [("transaction", Str "envelope");
                 ("network_passphrase", Str Networks.TESTNET)])
           (Str Networks.TESTNET)
           {| env_tx := Demo.challenge; env_signatures := [] |} Demo.subject
           (Demo.submit_request "envelope+GSUBJECT" Networks.TESTNET)
           {| tx := Demo.challenge;
              signatures := [Demo.by_subject; Demo.by_origin];
              networkPassphrase := Networks.TESTNET |}
           eq_refl eq_refl eq_refl eq_refl eq_refl eq_refl eq_refl eq_refl).
Defined.

(** What the browser sends once the challenge has been signed. *)
Lemma browser_request (W : World) (secret xdr network : string)
      (challengeTx passphrase : value) (env : Envelope) (user : Keypair) :
  prop challengeTx "network_passphrase" = inr passphrase ->
  determine_network passphrase = inr (Str network) ->
  prop challengeTx "transaction" = inr (Str xdr) ->
  fromXDR (sdk W) xdr = inr env ->
  fromSecret (sdk W) secret = inr user ->
  handleSignAndSubmit_request W secret challengeTx =
  inr {| authorization := None;
         body := [("signedTransaction",
                   Str (toXDR (sdk W) (user_signed W user network env)));
                  ("networkPassphrase", passphrase)] |}.
Proof.
  intros Hp Hn Ht Hx Hu. unfold handleSignAndSubmit_request.
  rewrite Hp, Hn, Ht. unfold new_Transaction. rewrite Hx, Hu. reflexivity.
Qed.

(** What the server makes of it. *)
Lemma server_cosign (W : World) (key network : string) (passphrase : value)
      (signed : Envelope) (server : Keypair) :
  determine_network passphrase = inr (Str network) ->
  fromXDR (sdk W) (toXDR (sdk W) signed) = inr signed ->
  fromSecret (sdk W) key = inr server ->
  coSign W key (Str (toXDR (sdk W) signed)) passphrase =
  inr {| tx := env_tx signed;
         signatures :=
           (env_signatures signed ++ [origin_signature W server network (env_tx signed)])%list;
         networkPassphrase := network |}.
Proof.
  intros Hn Hround Hk. unfold coSign, new_Transaction.
  rewrite Hn, Hround, Hk. reflexivity.
Qed.

(** ** The front end against the back end *)

(** The front end's SEP-24 requests pass the gate with the token they carry. *)
Lemma status_request_passes (W : World) (cfg : Config) (st : Frontend.State) :
  serve W cfg post_sep24_transaction (status_request st) =
  sep24_transaction W cfg (authToken st) (status_request st) [].
Proof. now apply serve_transaction_pass. Qed.

Lemma start_request_passes (W : World) (cfg : Config) (account : string) (f : App.Form)
      (st : Frontend.State) (mode : string) :
  serve W cfg post_sep24_start (App.start_request account f st mode) =
  sep24_start W cfg (authToken st) (App.start_request account f st mode) [].
Proof. now apply serve_start_pass. Qed.

(** The concrete [fetch] reaches the back end. *)
Lemma via_backend_reaches (W : World) (cfg : Config) (r : route) :
  App.reaches_backend W cfg r (App.via_backend W cfg r).
Proof. intros req response H. unfold App.via_backend. now rewrite H. Qed.

(** X21. The whole handshake, from the button to the token, for any
    [fetch] that reaches the back end.  Let the directory advertise the auth
    endpoint; let the anchor answer the challenge request with a transaction
    that decodes and a passphrase that can be printed and for which a
    network is picked; let both keys decode and the user-signed envelope
    survive the codec; let the anchor accept the submission with an object.
    Then requesting the challenge leaves the front end at step 2, signing
    and submitting leaves it at step 4 with no error, the token handed to
    [setAuthToken] is the anchor's, and the envelope the anchor got carries
    the challenge's signatures, then the user's, then the server's. *)
Theorem handshake_end_to_end (W : World) (cfg : Config) (s : App.Sep10)
        (fetch_challenge fetch_submit : Request -> fetched)
        (toml endpoint account domain xdr network key : string)
        (passphrase : value) (env : Envelope) (user server : Keypair)
        (fields : list (string * value)) :
  App.reaches_backend W cfg post_sep10_get_challenge fetch_challenge ->
  App.reaches_backend W cfg post_sep10_submit fetch_submit ->
  App.publicKey s <> EmptyString ->
  remote W [] (directory_fetch cfg) = Ok (Str toml) ->
  match_key "WEB_AUTH_ENDPOINT" toml = Some endpoint ->
  encodeURIComponent W (App.publicKey s) = inr account ->
  encodeURIComponent W (CLIENT_DOMAIN cfg) = inr domain ->
  remote W [directory_fetch cfg] (challenge_fetch endpoint account domain)
  = Ok (Obj [("transaction", Str xdr); ("network_passphrase", passphrase)]) ->
  truthy passphrase = true ->
  printable passphrase = true ->
  determine_network passphrase = inr (Str network) ->
  fromXDR (sdk W) xdr = inr env ->
  fromSecret (sdk W) (App.secretKey s) = inr user ->
  let signed := user_signed W user network env in
  toXDR (sdk W) signed <> EmptyString ->
  fromXDR (sdk W) (toXDR (sdk W) signed) = inr signed ->
  signing_key cfg = Some key ->
  fromSecret (sdk W) key = inr server ->
  let txn := {| tx := env_tx env;
                signatures :=
                  (env_signatures env ++
                   [origin_signature W user network (env_tx env);
                    origin_signature W server network (env_tx env)])%list;
                networkPassphrase := network |} in
  remote W [directory_fetch cfg] (submission W endpoint txn) = Ok (Obj fields) ->
  let s1 := App.handleGetChallenge s (fetch_challenge (App.challenge_request s)) in
  let done := App.handleSignAndSubmit W s1 fetch_submit in
  App.step s1 = 2%Z /\
  App.step (fst done) = 4%Z /\ App.error (fst done) = EmptyString /\
  App.loading (fst done) = false /\
  snd done = Some (assoc "token" fields) /\
  forall req, handleSignAndSubmit_request W (App.secretKey s1) (App.challengeTx s1) = inr req ->
              snd (serve W cfg post_sep10_submit req)
              = [directory_fetch cfg; submission W endpoint txn].
Proof.
  intros Hf1 Hf2 Hpk Hdir Hm Ha Hd Hget Htruthy Hprint Hn Hx Hu signed Hne Hround Hkey Hk
         txn Hpost s1 done.
  assert (Hnu : passphrase <> Undefined) by (intros ->; discriminate Htruthy).
  (* the challenge as the front end stores it *)
  assert (Hs1 : s1 = {| App.publicKey := App.publicKey s; App.secretKey := App.secretKey s;
                        App.step := 2; App.loading := false; App.error := EmptyString;
                        App.challengeTx :=
                          Obj [("transaction", Str xdr);
                               ("network_passphrase", passphrase);
                               ("webAuthEndpoint", Str endpoint)] |}).
  { assert (Hacc : missing "account" (App.challenge_request s) = false).
    { unfold missing. cbn. destruct (App.publicKey s); [contradiction|reflexivity]. }
    assert (Hnp : printable (assoc "network_passphrase"
                               [("transaction", Str xdr); ("network_passphrase", passphrase)])
                  = true) by exact Hprint.
    pose proof (sep10_get_challenge_run W cfg (App.challenge_request s) toml endpoint
                  (App.publicKey s) account domain
                  [("transaction", Str xdr); ("network_passphrase", passphrase)]
                  Hacc eq_refl Hdir Hm Ha Hd Hget Hnp) as Hrun.
    subst s1. rewrite (Hf1 _ _ (f_equal fst Hrun)).
    cbn [App.handleGetChallenge]. unfold respond, object.
    cbn [filter snd assoc String.eqb Ascii.eqb Bool.eqb].
    destruct passphrase; try contradiction; reflexivity. }
  (* the request the browser builds, and the server's co-signature *)
  assert (Hreq : handleSignAndSubmit_request W (App.secretKey s1) (App.challengeTx s1) =
                 inr {| authorization := None;
                        body := [("signedTransaction", Str (toXDR (sdk W) signed));
                                 ("networkPassphrase", passphrase)] |}).
  { rewrite Hs1. cbn [App.secretKey App.challengeTx].
    apply browser_request with (xdr := xdr); try assumption; reflexivity. }
  assert (Hcfg : CLIENT_SIGNING_KEY cfg = Some key /\ key <> EmptyString).
  { unfold signing_key in Hkey.
    destruct (CLIENT_SIGNING_KEY cfg) as [[|a k]|]; try discriminate Hkey.
    injection Hkey as <-. split; [reflexivity|discriminate]. }
  destruct Hcfg as [Hcfg Hkne].
  assert (Hsign : coSign W key (Str (toXDR (sdk W) signed)) passphrase = inr txn).
  { rewrite (server_cosign W key network passphrase signed server Hn Hround Hk).
    subst txn signed. cbn [user_signed env_tx env_signatures]. now rewrite <- app_assoc. }
  assert (Hrun : serve W cfg post_sep10_submit
                   {| authorization := None;
                      body := [("signedTransaction", Str (toXDR (sdk W) signed));
                               ("networkPassphrase", passphrase)] |}
                 = (inr (respond 200 [("token", assoc "token" fields)]),
                    [directory_fetch cfg; submission W endpoint txn])).
  { set (req := {| authorization := None;
                    body := [("signedTransaction", Str (toXDR (sdk W) signed));
                             ("networkPassphrase", passphrase)] |}).
    assert (Hst : missing "signedTransaction" req = false).
    { unfold missing. cbn. destruct (toXDR (sdk W) signed); [contradiction|reflexivity]. }
    assert (Hnp : missing "networkPassphrase" req = false).
    { unfold missing. cbn. now rewrite Htruthy. }
    rewrite (sep10_submit_run W cfg req key txn toml endpoint Hst Hnp Hcfg Hkne Hsign Hdir Hm).
    rewrite Hpost. reflexivity. }
  assert (Hdone : done = ({| App.publicKey := App.publicKey s1;
                             App.secretKey := App.secretKey s1;
                             App.step := 4; App.loading := false;
                             App.error := EmptyString;
                             App.challengeTx := App.challengeTx s1 |},
                          Some (assoc "token" fields))).
  { subst done. unfold App.handleSignAndSubmit. rewrite Hreq.
    rewrite (Hf2 _ _ (f_equal fst Hrun)).
    unfold respond, object. cbn [filter snd].
    destruct (assoc "token" fields) eqn:Et; reflexivity. }
  split; [now rewrite Hs1|].
  rewrite Hdone. cbn [fst snd App.step App.error App.loading].
  repeat split.
  intros req Hreq'. rewrite Hreq in Hreq'. injection Hreq' as <-. now rewrite Hrun.
Qed.

Lemma handshake_end_to_end_witness :
  let W := Demo.world Demo.auth_line Demo.token_reply 0 in
  let s := {| App.publicKey := "GSUBJECT"; App.secretKey := "SUBJECT"; App.step := 0;
              App.loading := false; App.error := EmptyString; App.challengeTx := Null |} in
  let s1 := App.handleGetChallenge s
              (App.via_backend W Demo.cfg post_sep10_get_challenge (App.challenge_request s)) in
  let done := App.handleSignAndSubmit W s1 (App.via_backend W Demo.cfg post_sep10_submit) in
  App.step s1 = 2%Z /\ App.step (fst done) = 4%Z /\ snd done = Some (Str "jwt").
Proof.
  intros W s s1 done.
  assert (Hpk : App.publicKey s <> EmptyString) by discriminate.
  assert (Hne : toXDR (sdk W)
                  (user_signed W Demo.subject Networks.TESTNET
                     {| env_tx := Demo.challenge; env_signatures := [] |}) <> EmptyString)
    by discriminate.
  pose proof (handshake_end_to_end W Demo.cfg s
                (App.via_backend W Demo.cfg post_sep10_get_challenge)
                (App.via_backend W Demo.cfg post_sep10_submit)
                Demo.auth_line "https://anchor/auth"
                "GSUBJECT" "7d857520cafe.ngrok-free.app%20" "envelope" Networks.TESTNET
                "SORIGIN" (Str Networks.TESTNET)
                {| env_tx := Demo.challenge; env_signatures := [] |}
                Demo.subject Demo.origin [("token", Str "jwt")]
                (via_backend_reaches W Demo.cfg post_sep10_get_challenge)
                (via_backend_reaches W Demo.cfg post_sep10_submit)
                Hpk eq_refl eq_refl eq_refl eq_refl eq_refl eq_refl eq_refl eq_refl eq_refl
                eq_refl Hne eq_refl eq_refl eq_refl eq_refl)
    as (H1 & H2 & _ & _ & H3 & _).
  exact (conj H1 (conj H2 H3)).
Defined.

(** ** The front end on its own *)

(** X22. Of an answer that is not ok the front end keeps the error field
    only: two such answers with the same error field leave every handler in
    the same state, so the details the back end attaches (the anchor's
    payload) never reach the state of the component. *)
Theorem details_do_not_reach_the_state (W : World) (s : App.Sep10) (f : App.Form)
        (st : Frontend.State) (mode : string) (r1 r2 : Response) :
  ok r1 = false -> ok r2 = false ->
  prop (json r1) "error" = prop (json r2) "error" ->
  App.handleGetChallenge s (Fetched r1) = App.handleGetChallenge s (Fetched r2) /\
  App.handleSignAndSubmit W s (fun _ => Fetched r1)
  = App.handleSignAndSubmit W s (fun _ => Fetched r2) /\
  App.startSep24 f st mode (Fetched r1) = App.startSep24 f st mode (Fetched r2) /\
  checkTransactionStatus st (Fetched r1) = checkTransactionStatus st (Fetched r2).
Proof.
  intros H1 H2 He.
  unfold App.handleGetChallenge, App.handleSignAndSubmit, App.startSep24,
    checkTransactionStatus, App.rejection_message.
  rewrite H1, H2, He. cbn [negb]. repeat split.
Qed.

Lemma details_do_not_reach_the_state_witness :
  let W := Demo.world Demo.auth_line Demo.token_reply 0 in
  let s := {| App.publicKey := "GSUBJECT"; App.secretKey := "SUBJECT"; App.step := 2;
              App.loading := false; App.error := EmptyString; App.challengeTx := Null |} in
  let r1 := failed "Failed to submit transaction"
              (AxiosError (Some (Str "signature missing")) "Request failed with status code 400") in
  let r2 := failed "Failed to submit transaction" (AxiosError None "Network Error") in
  App.handleGetChallenge s (Fetched r1) = App.handleGetChallenge s (Fetched r2).
Proof.
  intros W s r1 r2.
  exact (proj1 (details_do_not_reach_the_state W s
                  {| App.sep24Mode := Null; App.assetCode := "USDC";
                     App.amount := EmptyString; App.interactiveUrl := Str EmptyString |}
                  idle "deposit" r1 r2 eq_refl eq_refl eq_refl)).
Defined.

(** X23. A poll that fails (no answer, or an answer that is not ok) does
    not lose the session: the step, the last status seen, the transaction
    id and the token are as before, the loading flag is cleared, and the
    user can poll again. *)
Theorem failed_poll_keeps_session (st : Frontend.State) (outcome : fetched) :
  (forall response, outcome = Fetched response -> ok response = false) ->
  let st' := checkTransactionStatus st outcome in
  sep24Step st' = sep24Step st /\
  transactionStatus st' = transactionStatus st /\
  transactionId st' = transactionId st /\
  authToken st' = authToken st /\
  sep24Loading st' = false.
Proof.
  intros Hfail. unfold checkTransactionStatus.
  destruct outcome as [response|m]; [|repeat split].
  rewrite (Hfail response eq_refl). cbn [negb].
  destruct (prop (json response) "error") as [thrown|e]; [repeat split|].
  destruct (to_string _); repeat split.
Qed.

Lemma failed_poll_keeps_session_witness :
  let st' := checkTransactionStatus idle (FetchFailed "Failed to fetch") in
  sep24Step st' = 2%Z /\
  transactionStatus st' = Null /\
  transactionId st' = Str "tx1" /\
  authToken st' = "jwt" /\
  sep24Loading st' = false.
Proof.
  apply (failed_poll_keeps_session idle (FetchFailed "Failed to fetch")).
  intros response H. discriminate H.
Defined.

(** X24. A poll through the back end, for any [fetch] that reaches it.
    The front end's status request passes the gate with whatever token the
    component holds; when the transaction id is truthy and can be printed,
    the directory advertises the transfer server and the anchor answers the
    query with a transaction object that can be logged, the component stores
    that object as the last status seen and moves to step 4 when its status
    is completed and to step 3 otherwise, with no error. *)
Theorem poll_through_backend (W : World) (cfg : Config) (st : Frontend.State)
        (fetch : Request -> fetched)
        (toml transferServer : string) (data : value) (fields : list (string * value)) :
  App.reaches_backend W cfg post_sep24_transaction fetch ->
  truthy (transactionId st) = true ->
  printable (transactionId st) = true ->
  remote W [] (directory_fetch cfg) = Ok (Str toml) ->
  match_key "TRANSFER_SERVER_SEP0024" toml = Some transferServer ->
  remote W [directory_fetch cfg]
         (status_query (authToken st) (status_request st) transferServer) = Ok data ->
  prop data "transaction" = inr (Obj fields) ->
  loggable (Obj fields) = true ->
  let st' := checkTransactionStatus st (fetch (status_request st)) in
  transactionStatus st' = Obj fields /\
  sep24Step st' = (if is_str "completed" (assoc "status" fields) then 4 else 3)%Z /\
  sep24Error st' = EmptyString /\
  sep24Loading st' = false.
Proof.
  intros Hfetch Hid Hprint Hdir Hm Hq Ht Hlog.
  assert (Hmiss : missing "id" (status_request st) = false).
  { unfold missing. cbn. now rewrite Hid. }
  assert (Hrun : fst (serve W cfg post_sep24_transaction (status_request st))
                 = inr {| status := 200; json := Obj fields |}).
  { rewrite status_request_passes.
    rewrite (sep24_transaction_run W cfg (status_request st) (authToken st) toml
               transferServer data Hmiss Hprint Hdir Hm Hq).
    now rewrite (status_outcome_loggable data (Obj fields) Ht Hlog). }
  rewrite (Hfetch _ _ Hrun). repeat split.
Qed.

Lemma poll_through_backend_witness :
  let W := Demo.world Demo.transfer_line Demo.interactive_reply 0 in
  let st' := checkTransactionStatus idle
               (App.via_backend W Demo.cfg post_sep24_transaction (status_request idle)) in
  transactionStatus st' = Obj [("id", Str "tx1"); ("status", Str "incomplete")] /\
  sep24Step st' = 3%Z /\
  sep24Error st' = EmptyString /\
  sep24Loading st' = false.
Proof.
  exact (poll_through_backend (Demo.world Demo.transfer_line Demo.interactive_reply 0)
           Demo.cfg idle
           (App.via_backend (Demo.world Demo.transfer_line Demo.interactive_reply 0)
              Demo.cfg post_sep24_transaction)
           Demo.transfer_line "https://anchor/sep24"
           (Obj [("transaction", Obj [("id", Str "tx1"); ("status", Str "incomplete")])])
           [("id", Str "tx1"); ("status", Str "incomplete")]
           (via_backend_reaches _ _ _)
           eq_refl eq_refl eq_refl eq_refl eq_refl eq_refl eq_refl).
Defined.

(** X25. What the front end's form turns into at the anchor.  Every
    initiation the back end posts for a request built by [startSep24]
    carries the asset code and the account of the form, the amount only when
    the amount field is not blank, and the component's token after the
    Bearer prefix; it goes to the deposit endpoint of the advertised
    transfer server when the mode is deposit and to the withdraw endpoint
    otherwise. *)
Theorem form_to_initiation (W : World) (cfg : Config) (account : string) (f : App.Form)
        (st : Frontend.State) (mode url : string) (data : value) (hdrs : headers) :
  In (AxiosPost url data hdrs)
     (snd (serve W cfg post_sep24_start (App.start_request account f st mode))) ->
  data = Obj ([("asset_code", Str (App.assetCode f)); ("account", Str account)] ++
              (if App.amount f =? EmptyString then []
               else [("amount", Str (App.amount f))]))%list /\
  hdrs = [("Authorization", "Bearer " ++ authToken st);
          ("Content-Type", "application/json")] /\
  exists transferServer,
    advertised W cfg "TRANSFER_SERVER_SEP0024" transferServer /\
    url = transferServer ++
          (if mode =? "deposit" then "/transactions/deposit/interactive"
           else "/transactions/withdraw/interactive").
Proof.
  rewrite start_request_passes. intros Hc.
  destruct (sep24_start_log W cfg (authToken st) (App.start_request account f st mode))
    as [L|[L|(ts & Hadv & [L|L])]];
    rewrite L in Hc; cbn [In] in Hc; unfold directory_fetch, info_fetch in Hc;
    try (intuition congruence).
  destruct Hc as [Hc|[Hc|[Hc|[]]]]; try discriminate Hc.
  unfold initiation, start_params, interactive_endpoint, bearer in Hc.
  cbn [App.start_request body assoc String.eqb Ascii.eqb Bool.eqb truthy is_str] in Hc.
  injection Hc as <- <- <-. repeat split.
  - now destruct (App.amount f =? EmptyString).
  - exists ts. split; [exact Hadv|reflexivity].
Qed.

Lemma form_to_initiation_witness :
  let W := Demo.world Demo.transfer_line Demo.interactive_reply 0 in
  let f := {| App.sep24Mode := Null; App.assetCode := "USDC";
              App.amount := EmptyString; App.interactiveUrl := Str EmptyString |} in
  Obj [("asset_code", Str "USDC"); ("account", Str "GSUBJECT")]
  = Obj ([("asset_code", Str (App.assetCode f)); ("account", Str "GSUBJECT")] ++
         (if App.amount f =? EmptyString then []
          else [("amount", Str (App.amount f))]))%list.
Proof.
  intros W f.
  refine (proj1 (form_to_initiation W Demo.cfg "GSUBJECT" f idle "withdraw"
                   "https://anchor/sep24/transactions/withdraw/interactive"
                   (Obj [("asset_code", Str "USDC"); ("account", Str "GSUBJECT")])
                   [("Authorization", "Bearer jwt"); ("Content-Type", "application/json")]
                   _)).
  cbn. right. right. left. reflexivity.
Defined.

(** X26. [setAuthToken] is only ever called with the token of an ok answer
    to the request built from the challenge the component holds; then the
    component is at step 4 with no error.  In every other case no token is
    stored and the component is back at step 2.  Either way the challenge
    and the keys are kept and the loading flag is cleared. *)
Theorem token_comes_from_ok_answer (W : World) (s : App.Sep10) (fetch : Request -> fetched) :
  let done := App.handleSignAndSubmit W s fetch in
  App.loading (fst done) = false /\
  App.challengeTx (fst done) = App.challengeTx s /\
  App.secretKey (fst done) = App.secretKey s /\
  match snd done with
  | Some token =>
      App.step (fst done) = 4%Z /\ App.error (fst done) = EmptyString /\
      exists req response,
        handleSignAndSubmit_request W (App.secretKey s) (App.challengeTx s) = inr req /\
        fetch req = Fetched response /\ ok response = true /\
        prop (json response) "token" = inr token
  | None => App.step (fst done) = 2%Z
  end.
Proof.
  unfold App.handleSignAndSubmit.
  destruct (handleSignAndSubmit_request W (App.secretKey s) (App.challengeTx s))
    as [e|req] eqn:Hreq; [repeat split|].
  destruct (fetch req) as [response|m] eqn:Hf; [|repeat split].
  destruct (ok response) eqn:Hok; cbn [negb]; [|repeat split].
  destruct (prop (json response) "token") as [e|token] eqn:Ht; [repeat split|].
  cbn [fst snd App.loading App.challengeTx App.secretKey App.step App.error].
  repeat split. exists req, response. auto.
Qed.

(** X27. An initiation through the back end, for any [fetch] that
    reaches it.  For a form with an asset code, an account and a mode, when
    the directory advertises the transfer server, the info fetch succeeds
    and the anchor accepts the initiation with an object whose id and url
    can be printed, the component ends at step 2 with the anchor's id as
    transaction id and the anchor's url as interactive url, the mode set and
    no error. *)
Theorem start_through_backend (W : World) (cfg : Config) (account : string) (f : App.Form)
        (st : Frontend.State) (fetch : Request -> fetched)
        (mode toml transferServer : string) (info : value)
        (fields : list (string * value)) :
  App.reaches_backend W cfg post_sep24_start fetch ->
  mode <> EmptyString -> App.assetCode f <> EmptyString -> account <> EmptyString ->
  remote W [] (directory_fetch cfg) = Ok (Str toml) ->
  match_key "TRANSFER_SERVER_SEP0024" toml = Some transferServer ->
  remote W [directory_fetch cfg] (info_fetch transferServer) = Ok info ->
  let req := App.start_request account f st mode in
  remote W [directory_fetch cfg; info_fetch transferServer]
         (initiation (authToken st) req transferServer) = Ok (Obj fields) ->
  printable (assoc "id" fields) = true ->
  printable (assoc "url" fields) = true ->
  let done := App.startSep24 f st mode (fetch req) in
  sep24Step (snd done) = 2%Z /\
  transactionId (snd done) = assoc "id" fields /\
  App.interactiveUrl (fst done) = assoc "url" fields /\
  App.sep24Mode (fst done) = Str mode /\
  sep24Error (snd done) = EmptyString /\
  sep24Loading (snd done) = false.
Proof.
  intros Hfetch Hmode Hasset Hacc Hdir Hm Hinfo req Hpost Hid Hurl done.
  assert (Hwf : well_formed_start req = true).
  { unfold well_formed_start, missing, printable, or. cbn.
    destruct mode; [contradiction|]. destruct (App.assetCode f); [contradiction|].
    destruct account; [contradiction|]. now destruct (App.amount f). }
  destruct (printable_inv _ Hid) as (id & Eid).
  destruct (printable_inv _ Hurl) as (url & Eurl).
  assert (Hrun : fst (serve W cfg post_sep24_start req)
                 = inr (respond 200 [("id", assoc "id" fields); ("url", assoc "url" fields);
                                     ("type", assoc "type" fields)])).
  { subst req. rewrite start_request_passes.
    rewrite (sep24_start_run W cfg _ (authToken st) toml transferServer info Hwf Hdir Hm Hinfo).
    rewrite Hpost. cbn [fst start_outcome prop]. now rewrite Eid, Eurl. }
  subst done. rewrite (Hfetch _ _ Hrun).
  unfold respond, object, App.startSep24.
  cbn [ok status Z.leb Z.compare Pos.compare Pos.compare_cont andb negb json].
  clear Eid Eurl Hid Hurl Hrun Hpost.
  destruct (assoc "id" fields), (assoc "url" fields), (assoc "type" fields);
    repeat split.
Qed.

Lemma start_through_backend_witness :
  let W := Demo.world Demo.transfer_line Demo.interactive_reply 0 in
  let f := {| App.sep24Mode := Null; App.assetCode := "USDC";
              App.amount := "100"; App.interactiveUrl := Str EmptyString |} in
  let req := App.start_request "GSUBJECT" f idle "deposit" in
  let done := App.startSep24 f idle "deposit"
                (App.via_backend W Demo.cfg post_sep24_start req) in
  sep24Step (snd done) = 2%Z /\
  transactionId (snd done) = Str "tx1" /\
  App.interactiveUrl (fst done) = Str "https://anchor/interactive/tx1" /\
  App.sep24Mode (fst done) = Str "deposit" /\
  sep24Error (snd done) = EmptyString /\
  sep24Loading (snd done) = false.
Proof.
  intros W f req done.
  assert (H1 : "deposit" <> EmptyString) by discriminate.
  assert (H2 : App.assetCode f <> EmptyString) by discriminate.
  assert (H3 : "GSUBJECT" <> EmptyString) by discriminate.
  exact (start_through_backend W Demo.cfg "GSUBJECT" f idle
           (App.via_backend W Demo.cfg post_sep24_start)
           "deposit" Demo.transfer_line
           "https://anchor/sep24" (Obj [])
           [("id", Str "tx1"); ("url", Str "https://anchor/interactive/tx1");
            ("type", Str "interactive_customer_info_needed")]
           (via_backend_reaches _ _ _)
           H1 H2 H3 eq_refl eq_refl eq_refl eq_refl eq_refl eq_refl).
Defined.

(** X28. A step that fails hands the wizard back for another try: when
    the fetch fails or the answer is not ok, requesting the challenge leaves
    the component at step 0 with the challenge it had, and starting a
    transfer leaves it at step 0 with the mode cleared and the transaction
    id, the last status and the token it had; both clear their loading
    flag. *)
Theorem failed_step_can_be_retried (s : App.Sep10) (f : App.Form) (st : Frontend.State)
        (mode : string) (outcome : fetched) :
  (forall response, outcome = Fetched response -> ok response = false) ->
  let s' := App.handleGetChallenge s outcome in
  let done := App.startSep24 f st mode outcome in
  (App.step s' = 0%Z /\ App.challengeTx s' = App.challengeTx s /\
   App.loading s' = false) /\
  (sep24Step (snd done) = 0%Z /\ App.sep24Mode (fst done) = Null /\
   transactionId (snd done) = transactionId st /\
   transactionStatus (snd done) = transactionStatus st /\
   authToken (snd done) = authToken st /\
   App.interactiveUrl (fst done) = App.interactiveUrl f /\
   sep24Loading (snd done) = false).
Proof.
  intros Hfail. unfold App.handleGetChallenge, App.startSep24.
  destruct outcome as [response|m]; [|repeat split].
  rewrite (Hfail response eq_refl). cbn [negb]. repeat split.
Qed.

Lemma failed_step_can_be_retried_witness :
  let s := {| App.publicKey := "GSUBJECT"; App.secretKey := "SUBJECT"; App.step := 0;
              App.loading := false; App.error := EmptyString; App.challengeTx := Null |} in
  App.step (App.handleGetChallenge s (FetchFailed "Failed to fetch")) = 0%Z /\
  App.challengeTx (App.handleGetChallenge s (FetchFailed "Failed to fetch")) = Null /\
  App.loading (App.handleGetChallenge s (FetchFailed "Failed to fetch")) = false.
Proof.
  intros s.
  refine (proj1 (failed_step_can_be_retried s
                   {| App.sep24Mode := Null; App.assetCode := "USDC";
                      App.amount := EmptyString; App.interactiveUrl := Str EmptyString |}
                   idle "deposit" (FetchFailed "Failed to fetch") _)).
  intros response H. discriminate H.
Defined.

(** [reset] does what [resetSep24] does and more: running either after
    [reset] changes nothing, and the keys and the asset code are kept. *)
Lemma reset_absorbs (c : App.Component) :
  App.reset (App.reset c) = App.reset c /\
  App.resetSep24 (App.reset c) = App.reset c /\
  App.publicKey (App.sep10 (App.reset c)) = App.publicKey (App.sep10 c) /\
  App.secretKey (App.sep10 (App.reset c)) = App.secretKey (App.sep10 c) /\
  App.assetCode (App.form (App.reset c)) = App.assetCode (App.form c) /\
  authToken (App.session (App.reset c)) = EmptyString.
Proof. repeat split. Qed.
